(** * Performance Indicator harness: conv1d and pyperformance drivers

    A shallow embedding of the two driver scripts
    [tensorflow/conv1d.py] and [python_interpreter/pipyperformance.py],
    and the properties of their harness contract.

    Modelling conventions.
    - A Python [int] is a [Z]; a Python [str] is a [string].
    - A Python / NumPy float is a [float]: an exact rational, an infinity or
      NaN.  Binary rounding and signed zeros are outside the model.
    - [os.environ] is a [gmap string string].
    - Effects (the two output streams, the calls into the compute engine and
      the clock) are threaded through a state-and-exception monad [M].
    - The collaborators are oracles: the wall clock is the sequence of its
      readings, the compute engine says which of its calls raise, the
      benchmark suite is what it prints, how it ends and what it leaves in
      its result file. *)

From Stdlib Require Import ZArith QArith Qabs Lqa List String Ascii Lia Bool.
From Stdlib Require Import Sorting.Permutation Sorting.Sorted.
From Stdlib Require Import DecimalString DecimalPos.
From stdpp Require Import base gmap strings list.

Set Warnings "-register-all".
Local Open Scope string_scope.
Local Open Scope list_scope.
Local Open Scope Z_scope.

(** ** Python values shared by both drivers *)

Module Py.

(** Floats: finite values are exact rationals. *)
Inductive float :=
| Fin (q : Q)
| Inf (negative : bool)
| NaN.

(** JSON documents as [json.dump] receives them; a [dict] keeps insertion
    order, hence the association list. *)
Inductive json :=
| JNull
| JBool (b : bool)
| JInt (z : Z)
| JFloat (f : float)
| JStr (s : string)
| JList (l : list json)
| JDict (kv : list (string * json)).

(** The argument tuple of a [SystemExit]: [sys.exit()] carries nothing,
    [sys.exit(v)] carries [v]. *)
Inductive exit_arg :=
| ANone
| AInt (z : Z)
| AStr (s : string).

Inductive exn :=
| ValueError (msg : string)
| TypeError (msg : string)
| ZeroDivisionError
| FileNotFoundError (path : string)
| JSONDecodeError
| OSError (msg : string)
| AttributeError (msg : string)
| KeyboardInterrupt
| SystemExit (args : option exit_arg).

(** [isinstance(e, Exception)]: [SystemExit] and [KeyboardInterrupt] derive
    from [BaseException] only. *)
Definition is_Exception (e : exn) : bool :=
  match e with
  | KeyboardInterrupt | SystemExit _ => false
  | _ => true
  end.

Inductive result (A : Type) :=
| Ok (a : A)
| Raise (e : exn).
Arguments Ok {A} a.
Arguments Raise {A} e.

(** *** [str(int)] and [int(str)] *)

Definition str_of_int (z : Z) : string :=
  NilZero.string_of_int (Z.to_int z).

(** Characters [str.strip] and [int] treat as blanks: TAB..CR, FS..US and
    the space. *)
Definition is_space (c : ascii) : bool :=
  let n := nat_of_ascii c in
  ((9 <=? n)%nat && (n <=? 13)%nat) || ((28 <=? n)%nat && (n <=? 32)%nat).

Fixpoint lstrip (l : list ascii) : list ascii :=
  match l with
  | c :: l' => if is_space c then lstrip l' else l
  | [] => []
  end.

Definition strip (l : list ascii) : list ascii :=
  rev (lstrip (rev (lstrip l))).

Definition digit_val (c : ascii) : option Z :=
  let n := nat_of_ascii c in
  if ((48 <=? n)%nat && (n <=? 57)%nat) then Some (Z.of_nat (n - 48)) else None.

(** Decimal digits, single underscores allowed between two digits.  The
    text is ASCII; the digits of other scripts are outside the model. *)
Fixpoint parse_digits (acc : Z) (after_digit : bool) (l : list ascii)
  : option Z :=
  match l with
  | [] => if after_digit then Some acc else None
  | c :: l' =>
      if Ascii.eqb c "_"%char then
        if after_digit then parse_digits acc false l' else None
      else
        match digit_val c with
        | Some d => parse_digits (10 * acc + d) true l'
        | None => None
        end
  end.

Definition parse_int (l : list ascii) : option Z :=
  match strip l with
  | c :: l' =>
      if Ascii.eqb c "-"%char then Z.opp <$> parse_digits 0 false l'
      else if Ascii.eqb c "+"%char then parse_digits 0 false l'
      else parse_digits 0 false (c :: l')
  | [] => None
  end.

(** The values the drivers pass to the built-in [int]. *)
Inductive value :=
| VInt (z : Z)
| VStr (s : string)
| VExn (e : exn).

(** [int(v)]: an [int] is returned as it is, a [str] is parsed in base 10
    and a malformed one raises [ValueError]; an exception object has none
    of [__int__], [__index__] and [__trunc__], so it raises [TypeError]. *)
Definition int (v : value) : result Z :=
  match v with
  | VInt z => Ok z
  | VStr s =>
      match parse_int (list_ascii_of_string s) with
      | Some z => Ok z
      | None =>
          Raise (ValueError
                   ("invalid literal for int() with base 10: '" +:+ s +:+ "'"))
      end
  | VExn _ =>
      Raise (TypeError
               ("int() argument must be a string, a bytes-like object or a "
                +:+ "number, not an exception"))
  end.

(** [str(exc)] of a [SystemExit]: the empty string without arguments,
    otherwise [str] of the single argument. *)
Definition str_of_exit (args : option exit_arg) : string :=
  match args with
  | None => ""
  | Some ANone => "None"
  | Some (AInt z) => str_of_int z
  | Some (AStr s) => s
  end.

(** *** Float division as NumPy performs it: no exception, a zero divisor
    gives an infinity or NaN. *)
Definition fdiv (a b : float) : float :=
  match a, b with
  | NaN, _ | _, NaN => NaN
  | Inf _, Inf _ => NaN
  | Inf s, Fin q => Inf (xorb s (negb (Qle_bool 0 q)))
  | Fin _, Inf _ => Fin 0
  | Fin p, Fin q =>
      if Qeq_bool q 0 then
        if Qeq_bool p 0 then NaN
        else Inf (negb (Qle_bool 0 p))
      else Fin (p / q)
  end.

(** Python's [int / int]: true division, [ZeroDivisionError] on zero. *)
Definition int_truediv (a b : Z) : result Q :=
  if b =? 0 then Raise ZeroDivisionError else Ok (inject_Z a / inject_Z b)%Q.

End Py.

(** ** NumPy reductions used by the numeric driver *)

Module Np.
Import Py.

Fixpoint insert (x : Q) (l : list Q) : list Q :=
  match l with
  | [] => [x]
  | y :: l' => if Qle_bool x y then x :: l else y :: insert x l'
  end.

(** The sorted copy [np.median] works on. *)
Fixpoint sort (l : list Q) : list Q :=
  match l with
  | [] => []
  | x :: l' => insert x (sort l')
  end.

Definition sum (l : list Q) : Q := fold_left Qplus l 0%Q.

(** [np.mean] of a one-dimensional array; NaN for the empty one. *)
Definition mean (l : list Q) : float :=
  match l with
  | [] => NaN
  | _ => Fin (sum l / inject_Z (Z.of_nat (length l)))
  end.

(** [part[lo:hi]] *)
Definition slice (lo hi : nat) (l : list Q) : list Q :=
  take (hi - lo) (drop lo l).

(** [np.median(a)]: the mean of the middle slice of the sorted copy, one
    element wide for an odd size and two wide for an even one. *)
Definition median (a : list Q) : float :=
  let part := sort a in
  let sz := length a in
  let index := (sz / 2)%nat in
  if (sz mod 2 =? 1)%nat then mean (slice index (index + 1) part)
  else mean (slice (index - 1) (index + 1) part).

End Np.

(** ** A process: output streams, clock, compute engine *)

Module Proc.
Import Py.

(** What one call writes to a stream.  Text whose formatting involves
    floats or engine metadata is kept symbolic. *)
Inductive chunk :=
| Line (s : string)
| VersionLine
| ConvTook (elapsed_ms rate : float)
| LogException (msg : string) (e : exn)
| Traceback (e : exn)
| JsonDump (j : json).

(** Calls into the compute engine and readings of the clock, in program
    order. *)
Inductive event :=
| Variable_ones (shape : list Z) (dtype : string)
| Conv1d (stride : Z) (padding data_format : string)
| GlobalInit
| RunOp
| Time.

Inductive fd := Fd1 | Fd2.

Record state := mkState {
  sys_stdout : fd;           (* the descriptor [sys.stdout] writes to *)
  out : list chunk;          (* descriptor 1 *)
  err : list chunk;          (* descriptor 2 *)
  ticks : nat;               (* calls of [time.time()] so far *)
  trace : list event
}.

Definition init : state := mkState Fd1 [] [] 0 [].

Definition M (A : Type) : Type := state -> result A * state.

Definition ret {A} (a : A) : M A := fun s => (Ok a, s).
Definition raise {A} (e : exn) : M A := fun s => (Raise e, s).
Definition bind {A B} (m : M A) (k : A -> M B) : M B :=
  fun s =>
    match m s with
    | (Ok a, s') => k a s'
    | (Raise e, s') => (Raise e, s')
    end.
Definition lift {A} (r : result A) : M A := fun s => (r, s).

#[export] Instance M_ret : MRet M := @ret.
#[export] Instance M_bind : MBind M := fun A B k m => bind m k.

(** [try: m except SystemExit as exc: h exc] *)
Definition try_except_SystemExit {A} (m : M A) (h : option exit_arg -> M A)
  : M A :=
  fun s =>
    match m s with
    | (Raise (SystemExit args), s') => h args s'
    | r => r
    end.

(** [try: m except Exception: h] *)
Definition try_except_Exception {A} (m : M A) (h : exn -> M A) : M A :=
  fun s =>
    match m s with
    | (Raise e, s') => if is_Exception e then h e s' else (Raise e, s')
    | r => r
    end.

Definition write (f : fd) (c : chunk) : M unit :=
  fun s =>
    (Ok tt,
     match f with
     | Fd1 => mkState (sys_stdout s) (out s ++ [c]) (err s) (ticks s) (trace s)
     | Fd2 => mkState (sys_stdout s) (out s) (err s ++ [c]) (ticks s) (trace s)
     end).

(** [print(..., file=sys.stderr)], and a write to whatever [sys.stdout]
    is bound to. *)
Definition print_stderr (c : chunk) : M unit := write Fd2 c.
Definition write_sys_stdout (c : chunk) : M unit :=
  fun s => write (sys_stdout s) c s.

Definition get_sys_stdout : M fd := fun s => (Ok (sys_stdout s), s).

Definition set_sys_stdout (f : fd) : M unit :=
  fun s => (Ok tt, mkState f (out s) (err s) (ticks s) (trace s)).

(** A call into the compute engine.  Whether it returns or raises is the
    engine's business: [engine tr e] is the exception the call [e] raises
    after the calls [tr], if it raises one. *)
Definition call_engine (engine : list event -> event -> option exn)
    (e : event) : M unit :=
  fun s =>
    (match engine (trace s) e with
     | None => Ok tt
     | Some x => Raise x
     end,
     mkState (sys_stdout s) (out s) (err s) (ticks s) (trace s ++ [e])).

(** [time.time()]: the next reading of the wall clock. *)
Definition time (clock : nat -> Q) : M Q :=
  fun s =>
    (Ok (clock (ticks s)),
     mkState (sys_stdout s) (out s) (err s) (S (ticks s)) (trace s ++ [Time])).

(** What the interpreter does when the script ends: exit status 0 on a
    normal end, the status of an uncaught [SystemExit], and status 1 with a
    traceback on the diagnostic stream for any other uncaught exception. *)
Definition exit_status (m : M unit) (s : state) : Z * state :=
  match m s with
  | (Ok _, s') => (0, s')
  | (Raise (SystemExit None), s') | (Raise (SystemExit (Some ANone)), s') =>
      (0, s')
  | (Raise (SystemExit (Some (AInt z))), s') => (z mod 256, s')
  | (Raise (SystemExit (Some (AStr msg))), s') =>
      (1, snd (write Fd2 (Line msg) s'))
  | (Raise e, s') => (1, snd (write Fd2 (Traceback e) s'))
  end.

End Proc.

Export Proc(M_ret, M_bind).


(** ** The numeric driver, [tensorflow/conv1d.py] *)

Module Conv1d.
Import Py Proc.

(** The module-level globals. *)
Record args := mkArgs {
  _ARGS_DTYPE : string;
  _ARGS_DEVICE : string;
  _ARGS_REPS : Z;
  _ARGS_DATA_FORMAT : string;
  _ARGS_BATCH : Z;
  _ARGS_INPUT_WIDTH : Z;
  _ARGS_T_INPUT_CHANNELS : Z;
  _ARGS_FILTER_WIDTH : Z;
  _ARGS_F_INPUT_CHANNELS : Z;
  _ARGS_OUTPUT_CHANNELS : Z;
  _ARGS_PADDING : string;
  _ARGS_STRIDE : Z
}.

Section Process.

(** The surroundings of one process: its environment, the successive
    readings of the wall clock, the compute engine, and the outcome of
    opening and parsing the engine's [build_info.json]. *)
Variable environ : gmap string string.
Variable clock : nat -> Q.
Variable engine : list event -> event -> option exn.
Variable build_info_file : result json.

(** [os.getenv(key, default)] *)
Definition getenv (key : string) (default : value) : value :=
  match environ !! key with
  | Some v => VStr v
  | None => default
  end.

Definition getenv_str (key default : string) : string :=
  match environ !! key with
  | Some v => v
  | None => default
  end.

(** [X = os.getenv(key, d)] followed by its echo *)
Definition str_param (label key d : string) : M string :=
  let v := getenv_str key d in
  print_stderr (Line (label +:+ " set to " +:+ v));;
  mret v.

(** [X = int(os.getenv(key, d))] followed by its echo *)
Definition int_param (label key : string) (d : Z) : M Z :=
  z ← lift (int (getenv key (VInt d)));
  print_stderr (Line (label +:+ " set to " +:+ str_of_int z));;
  mret z.

(** The module-level statements, lines 34 to 85. *)
Definition resolve : M args :=
  dtype ← str_param "DTYPE" "TENSOR_DTYPE" "float32";
  device ← str_param "DEVICE" "CONV2D_DEVICE" "cpu";
  reps ← int_param "REPS" "CONV_REPS" 80;
  data_format ← str_param "CONV DATA FORMAT" "CONV_DATA_FORMAT" "NWC";
  batch ← int_param "BATCH" "BATCH" 1;
  input_width ← int_param "TENSOR INPUT WIDTH" "TENSOR_INPUT_WIDTH" 7;
  t_input_channels ←
    int_param "TENSOR INPUT CHANNELS" "TENSOR_INPUT_CHANNELS" 1;
  filter_width ← int_param "FILTER INPUT WIDTH" "FILTER_INPUT_WIDTH" 3;
  f_input_channels ←
    int_param "FILTER INPUT CHANNELS" "FILTER_INPUT_CHANNELS" t_input_channels;
  output_channels ←
    int_param "FILTER OUTPUT CHANNELS" "FILTER_OUTPUT_CHANNELS" 1;
  padding ← str_param "FILTER PADDING" "FILTER_PADDING" "SAME";
  stride ← int_param "FILTER STRIDE" "FILTER_STRIDE" 2;
  mret (mkArgs dtype device reps data_format batch input_width
          t_input_channels filter_width f_input_channels output_channels
          padding stride).

Definition _get_aicoe_tensorflow_build_info : M json :=
  try_except_Exception
    (lift build_info_file)
    (fun e =>
       print_stderr
         (LogException
            "Failed to obtain AICoE specific build information for TensorFlow"
            e);;
       mret JNull).

(** The body of [for i in range(n)], with [times] so far. *)
Fixpoint timed_runs (n : nat) (times : list Q) : M (list Q) :=
  match n with
  | O => mret times
  | S n' =>
      start ← time clock;
      call_engine engine RunOp;;
      stop ← time clock;
      timed_runs n' (times ++ [(stop - start)%Q])
  end.

(** Lines 171 to 177: the warm-up run and the timed repetitions. *)
Definition measure (reps : Z) : M (list Q) :=
  call_engine engine RunOp;;
  timed_runs (Z.to_nat reps) [].

(** Lines 184 to 191 *)
Definition total_operations (g : args)
    (batch tensor_input_width tensor_input_channels filter_width
     filter_output_channels : Z) : result Q :=
  int_truediv
    (batch * tensor_input_width * filter_width * tensor_input_channels
     * filter_output_channels * 2)
    (_ARGS_STRIDE g).

(** Line 192 *)
Definition derive_rate (ops : Q) (elapsed_ms : float) : float :=
  fdiv (fdiv (Fin ops) elapsed_ms) (Fin (inject_Z (10 ^ 6))).

(** Line 179 *)
Definition times_ms (times : list Q) : list Q := map (Qmult 1000) times.

Definition bench (g : args)
    (batch tensor_input_width tensor_input_channels filter_width
     filter_input_channels filter_output_channels : Z) : M (float * float) :=
  (if String.eqb (_ARGS_DATA_FORMAT g) "NWC" then
     call_engine engine
       (Variable_ones [batch; tensor_input_width; tensor_input_channels]
          (_ARGS_DTYPE g))
   else if String.eqb (_ARGS_DATA_FORMAT g) "NCW" then
     call_engine engine
       (Variable_ones [batch; tensor_input_channels; tensor_input_width]
          (_ARGS_DTYPE g))
   else raise (ValueError ("Unknown data_format: " +:+ _ARGS_DATA_FORMAT g)));;
  call_engine engine
    (Variable_ones [filter_width; filter_input_channels; filter_output_channels]
       (_ARGS_DTYPE g));;
  call_engine engine
    (Conv1d (_ARGS_STRIDE g) (_ARGS_PADDING g) (_ARGS_DATA_FORMAT g));;
  call_engine engine GlobalInit;;
  times ← measure (_ARGS_REPS g);
  let elapsed_ms := Np.median (times_ms times) in
  ops ← lift (total_operations g batch tensor_input_width
                tensor_input_channels filter_width filter_output_channels);
  let rate := derive_rate ops elapsed_ms in
  print_stderr (ConvTook elapsed_ms rate);;
  mret (rate, elapsed_ms).

(** The ["@parameters"] entry of the report. *)
Definition parameters (g : args) : json :=
  JDict [
    ("dtype", JStr (_ARGS_DTYPE g));
    ("device", JStr (_ARGS_DEVICE g));
    ("reps", JInt (_ARGS_REPS g));
    ("batch", JInt (_ARGS_BATCH g));
    ("input_width", JInt (_ARGS_INPUT_WIDTH g));
    ("input_channels", JInt (_ARGS_T_INPUT_CHANNELS g));
    ("filter_width", JInt (_ARGS_FILTER_WIDTH g));
    ("output_channels", JInt (_ARGS_OUTPUT_CHANNELS g));
    ("strides", JInt (_ARGS_STRIDE g));
    ("padding", JStr (_ARGS_PADDING g));
    ("data_format", JStr (_ARGS_DATA_FORMAT g))
  ].

Definition report (g : args) (rate elapsed : float) (buildinfo : json) : json :=
  JDict [
    ("framework", JStr "tensorflow");
    ("name", JStr "PiConv1D");
    ("@parameters", parameters g);
    ("@result", JDict [("rate", JFloat rate); ("elapsed", JFloat elapsed)]);
    ("tensorflow_buildinfo", buildinfo)
  ].

Definition main (g : args) : M unit :=
  print_stderr VersionLine;;
  r ← bench g (_ARGS_BATCH g) (_ARGS_INPUT_WIDTH g) (_ARGS_T_INPUT_CHANNELS g)
        (_ARGS_FILTER_WIDTH g) (_ARGS_F_INPUT_CHANNELS g)
        (_ARGS_OUTPUT_CHANNELS g);
  buildinfo ← _get_aicoe_tensorflow_build_info;
  write_sys_stdout (JsonDump (report g r.1 r.2 buildinfo)).

(** The script: the module-level statements, then [main()]. *)
Definition script : M unit :=
  g ← resolve;
  main g.

Definition run : Z * state := exit_status script init.

End Process.

End Conv1d.

(** ** The suite bridge, [python_interpreter/pipyperformance.py] *)

Module PiPyPerformance.
Import Py Proc.

(** What [open("output.json", "r")] finds: nothing, or a text whose parse by
    [json.load] either fails or gives a document. *)
Inductive file :=
| NoFile
| Text (parsed : option json).

(** What the calls into the external suite inside [bench()] do, as far as
    the process can observe: the text written on the two streams (progress
    lines go to [sys.stdout]), how the calls end, and what is at
    [output.json] afterwards. *)
Record suite := mkSuite {
  suite_stdout : list chunk;
  suite_stderr : list chunk;
  suite_end : result unit;
  output_json : file
}.

Section Process.

Variable pyperformance : suite.

Definition write_all (f : fd) (cs : list chunk) : M unit :=
  fun s => (Ok tt, fold_left (fun s c => snd (write f c s)) cs s).

(** [bench()]: [parse_args], [get_benchmarks_to_run], [run_benchmarks] and
    [suite.dump], all of them calls into the suite. *)
Definition bench : M unit :=
  f ← get_sys_stdout;
  write_all f (suite_stdout pyperformance);;
  write_all Fd2 (suite_stderr pyperformance);;
  lift (suite_end pyperformance).

(** [with open("output.json", "r") as output: json.load(output)] *)
Definition load_output : M json :=
  match output_json pyperformance with
  | NoFile => raise (FileNotFoundError "output.json")
  | Text None => raise JSONDecodeError
  | Text (Some j) => mret j
  end.

Definition report (benchmarks : json) : json :=
  JDict [
    ("test_suite", JStr "performance");
    ("name", JStr "PiPyPerformance");
    ("@parameters", JDict []);
    ("@result", benchmarks)
  ].

(** The module-level statements, lines 40 to 60. *)
Definition script : M unit :=
  try_except_SystemExit bench
    (fun args =>
       code ← lift (int (VStr (str_of_exit args)));
       if negb (code =? 0) then
         n ← lift (int (VExn (SystemExit args)));
         print_stderr
           (Line ("pyperformance did not finish successfully: %d "
                  +:+ str_of_int n))
       else mret tt);;
  original_stdout ← get_sys_stdout;
  set_sys_stdout Fd2;;
  benchmarks ← load_output;
  write original_stdout (JsonDump (report benchmarks));;
  raise (SystemExit (Some (AInt 0))).

Definition run : Z * state := exit_status script init.

End Process.

End PiPyPerformance.

(** ** Notions the properties are stated with *)

Module Spec.
Import Py Proc Conv1d.

(** Equality of floats up to the representation of the rational. *)
Definition feq (a b : float) : Prop :=
  match a, b with
  | Fin p, Fin q => (p == q)%Q
  | Inf s, Inf t => s = t
  | NaN, NaN => True
  | _, _ => False
  end.

(** The elapsed times of [n] consecutive repetitions when the clock has
    been read [t0] times before: each repetition reads it twice. *)
Fixpoint durations (clock : nat -> Q) (t0 n : nat) : list Q :=
  match n with
  | O => []
  | S n' => (clock (S t0) - clock t0)%Q :: durations clock (S (S t0)) n'
  end.

Definition is_run (e : event) : bool :=
  match e with RunOp => true | _ => false end.

(** How often the workload has been executed. *)
Definition runs (tr : list event) : nat := length (List.filter is_run tr).

(** An engine none of whose calls raises, and the two properties of an
    engine the statements below ask for. *)
Definition engine_up : list event -> event -> option exn := fun _ _ => None.

Definition never_fails (engine : list event -> event -> option exn) : Prop :=
  forall tr e, engine tr e = None.

Definition workload_runs (engine : list event -> event -> option exn)
  : Prop :=
  forall tr, engine tr RunOp = None.

(** One measured repetition: clock, workload, clock. *)
Definition repetition : list event := [Time; RunOp; Time].

(** How many entries of [l] are at most, and at least, [m]. *)
Definition count_le (m : Q) (l : list Q) : nat :=
  length (List.filter (fun x => Qle_bool x m) l).

Definition count_ge (m : Q) (l : list Q) : nat :=
  length (List.filter (fun x => Qle_bool m x) l).

(** The statistical median: at least half of the sample is at most [m]
    and at least half of it is at least [m]. *)
Definition is_median (m : Q) (l : list Q) : Prop :=
  (length l <= 2 * count_le m l)%nat /\ (length l <= 2 * count_ge m l)%nat.

(** The middle of a sorted copy: its middle entry when the size is odd,
    the average of its two middle entries when the size is even. *)
Definition middle (s : list Q) (m : Q) : Prop :=
  let n := length s in
  (Nat.Odd n -> exists x, s !! (n / 2)%nat = Some x /\ (m == x)%Q)
  /\ (Nat.Even n ->
      exists a b, s !! (n / 2 - 1)%nat = Some a /\ s !! (n / 2)%nat = Some b
                  /\ (m == (a + b) / 2)%Q).

(** Scenario A: the defaults of the numeric driver. *)
Definition scenario_A : args :=
  mkArgs "float32" "cpu" 80 "NWC" 1 7 1 3 1 1 "SAME" 2.

(** [TENSOR_INPUT_CHANNELS=5] and nothing else, and the globals it gives. *)
Definition environ_5_channels : gmap string string :=
  {["TENSOR_INPUT_CHANNELS" := "5"]}.

Definition args_5_channels : args :=
  mkArgs "float32" "cpu" 80 "NWC" 1 7 5 3 5 1 "SAME" 2.

(** A clock on which every repetition of the workload takes 10 ms. *)
Definition clock_10ms (n : nat) : Q :=
  (inject_Z (Z.of_nat (n / 2)) + inject_Z (Z.of_nat (n mod 2)) * (1 # 100))%Q.

(** The environment variables read through [int]. *)
Definition int_keys : list string :=
  ["CONV_REPS"; "BATCH"; "TENSOR_INPUT_WIDTH"; "TENSOR_INPUT_CHANNELS";
   "FILTER_INPUT_WIDTH"; "FILTER_INPUT_CHANNELS"; "FILTER_OUTPUT_CHANNELS";
   "FILTER_STRIDE"].

(** The variable is unset, or set to a text [int] accepts. *)
Definition parses (environ : gmap string string) (key : string) : bool :=
  match environ !! key with
  | Some v => match int (VStr v) with Ok _ => true | Raise _ => false end
  | None => true
  end.

(** Every integer-valued variable that is set holds an integer literal. *)
Definition well_formed (environ : gmap string string) : bool :=
  forallb (parses environ) int_keys.

(** The integer a variable holds; the default when it is unset or holds
    something else. *)
Definition int_or_default (environ : gmap string string) (key : string)
    (d : Z) : Z :=
  match environ !! key with
  | Some v => match int (VStr v) with Ok z => z | Raise _ => d end
  | None => d
  end.

(** Resolution as the specification words it: a value that is unset or
    malformed falls back to the default. *)
Definition resolve_with_fallback (environ : gmap string string) : args :=
  let t_input_channels := int_or_default environ "TENSOR_INPUT_CHANNELS" 1 in
  mkArgs
    (getenv_str environ "TENSOR_DTYPE" "float32")
    (getenv_str environ "CONV2D_DEVICE" "cpu")
    (int_or_default environ "CONV_REPS" 80)
    (getenv_str environ "CONV_DATA_FORMAT" "NWC")
    (int_or_default environ "BATCH" 1)
    (int_or_default environ "TENSOR_INPUT_WIDTH" 7)
    t_input_channels
    (int_or_default environ "FILTER_INPUT_WIDTH" 3)
    (int_or_default environ "FILTER_INPUT_CHANNELS" t_input_channels)
    (int_or_default environ "FILTER_OUTPUT_CHANNELS" 1)
    (getenv_str environ "FILTER_PADDING" "SAME")
    (int_or_default environ "FILTER_STRIDE" 2).

(** A computation that leaves standard output alone. *)
Definition quiet {A} (m : M A) : Prop :=
  forall s, out (m s).2 = out s /\ sys_stdout (m s).2 = sys_stdout s.

(** What [bench] returns, as a function of the sample it measured. *)
Definition bench_value (g : args) (batch w c fw oc : Z) (times : list Q)
  : result (float * float) :=
  if (String.eqb (_ARGS_DATA_FORMAT g) "NWC"
      || String.eqb (_ARGS_DATA_FORMAT g) "NCW")%bool then
    match total_operations g batch w c fw oc with
    | Ok ops =>
        let elapsed_ms := Np.median (times_ms times) in
        Ok (derive_rate ops elapsed_ms, elapsed_ms)
    | Raise e => Raise e
    end
  else Raise (ValueError ("Unknown data_format: " +:+ _ARGS_DATA_FORMAT g)).

(** What the report carries for the build information. *)
Definition probe_value (probe : result json) : result json :=
  match probe with
  | Ok j => Ok j
  | Raise e => if is_Exception e then Ok JNull else Raise e
  end.

(** [report[key]] *)
Definition field (key : string) (j : json) : option json :=
  match j with
  | JDict kv => snd <$> List.find (fun p => String.eqb (fst p) key) kv
  | _ => None
  end.

(** The part of [bench] after the input tensor is built. *)
Definition bench_rest (clock : nat -> Q)
    (engine : list event -> event -> option exn) (g : args)
    (b w c fw fic oc : Z) : M (float * float) :=
  call_engine engine (Variable_ones [fw; fic; oc] (_ARGS_DTYPE g));;
  call_engine engine
    (Conv1d (_ARGS_STRIDE g) (_ARGS_PADDING g) (_ARGS_DATA_FORMAT g));;
  call_engine engine GlobalInit;;
  times ← measure clock engine (_ARGS_REPS g);
  let elapsed_ms := Np.median (times_ms times) in
  ops ← lift (total_operations g b w c fw oc);
  let rate := derive_rate ops elapsed_ms in
  print_stderr (ConvTook elapsed_ms rate);;
  mret (rate, elapsed_ms).

(** The tail of [main]: the probe, then the report. *)
Definition emit (probe : result json) (g : args) (r : float * float)
  : M unit :=
  buildinfo ← _get_aicoe_tensorflow_build_info probe;
  write_sys_stdout (JsonDump (report g r.1 r.2 buildinfo)).

(** The exit status the interpreter gives for the way a script ends. *)
Definition status_of (r : result unit) : Z :=
  match r with
  | Ok _ => 0
  | Raise (SystemExit None) | Raise (SystemExit (Some ANone)) => 0
  | Raise (SystemExit (Some (AInt z))) => z mod 256
  | Raise _ => 1
  end.

(** Exit status and standard output of the numeric driver, read off its
    inputs. *)
Definition expected_run (environ : gmap string string) (clock : nat -> Q)
    (probe : result json) : Z * list chunk :=
  if well_formed environ then
    let g := resolve_with_fallback environ in
    match bench_value g (_ARGS_BATCH g) (_ARGS_INPUT_WIDTH g)
            (_ARGS_T_INPUT_CHANNELS g) (_ARGS_FILTER_WIDTH g)
            (_ARGS_OUTPUT_CHANNELS g)
            (durations clock 0 (Z.to_nat (_ARGS_REPS g))) with
    | Ok r =>
        match probe_value probe with
        | Ok bi => (0, [JsonDump (report g r.1 r.2 bi)])
        | Raise e => (status_of (Raise e), [])
        end
    | Raise e => (status_of (Raise e), [])
    end
  else (1, []).

(** The same globals with another [_ARGS_F_INPUT_CHANNELS]. *)
Definition set_f_input_channels (g : args) (x : Z) : args :=
  mkArgs (_ARGS_DTYPE g) (_ARGS_DEVICE g) (_ARGS_REPS g) (_ARGS_DATA_FORMAT g)
    (_ARGS_BATCH g) (_ARGS_INPUT_WIDTH g) (_ARGS_T_INPUT_CHANNELS g)
    (_ARGS_FILTER_WIDTH g) x (_ARGS_OUTPUT_CHANNELS g) (_ARGS_PADDING g)
    (_ARGS_STRIDE g).

(** The characters [str] writes for a decimal number. *)
Definition chars (d : Decimal.uint) : list ascii :=
  list_ascii_of_string (NilEmpty.string_of_uint d).

(** A suite that prints a progress line on standard output, writes its
    result file and returns. *)
Definition chatty_suite : PiPyPerformance.suite :=
  PiPyPerformance.mkSuite [Line "[1/1] chameleon..."] [] (Ok tt)
    (PiPyPerformance.Text (Some (JDict []))).

(** A suite that ends with [sys.exit(2)] while a result file is there. *)
Definition exiting_suite : PiPyPerformance.suite :=
  PiPyPerformance.mkSuite [] [Line "usage: pyperformance run [-h]"]
    (Raise (SystemExit (Some (AInt 2))))
    (PiPyPerformance.Text (Some (JDict []))).

(** *** Notions for the further properties *)

(** The twelve lines the module-level statements print. *)
Definition echoes (g : args) : list chunk :=
  [Line ("DTYPE set to " +:+ _ARGS_DTYPE g);
   Line ("DEVICE set to " +:+ _ARGS_DEVICE g);
   Line ("REPS set to " +:+ str_of_int (_ARGS_REPS g));
   Line ("CONV DATA FORMAT set to " +:+ _ARGS_DATA_FORMAT g);
   Line ("BATCH set to " +:+ str_of_int (_ARGS_BATCH g));
   Line ("TENSOR INPUT WIDTH set to " +:+ str_of_int (_ARGS_INPUT_WIDTH g));
   Line ("TENSOR INPUT CHANNELS set to "
         +:+ str_of_int (_ARGS_T_INPUT_CHANNELS g));
   Line ("FILTER INPUT WIDTH set to " +:+ str_of_int (_ARGS_FILTER_WIDTH g));
   Line ("FILTER INPUT CHANNELS set to "
         +:+ str_of_int (_ARGS_F_INPUT_CHANNELS g));
   Line ("FILTER OUTPUT CHANNELS set to "
         +:+ str_of_int (_ARGS_OUTPUT_CHANNELS g));
   Line ("FILTER PADDING set to " +:+ _ARGS_PADDING g);
   Line ("FILTER STRIDE set to " +:+ str_of_int (_ARGS_STRIDE g))].


(** The environment that spells out every global of [g]. *)
Definition environ_of (g : args) : gmap string string :=
  list_to_map
    [("TENSOR_DTYPE", _ARGS_DTYPE g);
     ("CONV2D_DEVICE", _ARGS_DEVICE g);
     ("CONV_REPS", str_of_int (_ARGS_REPS g));
     ("CONV_DATA_FORMAT", _ARGS_DATA_FORMAT g);
     ("BATCH", str_of_int (_ARGS_BATCH g));
     ("TENSOR_INPUT_WIDTH", str_of_int (_ARGS_INPUT_WIDTH g));
     ("TENSOR_INPUT_CHANNELS", str_of_int (_ARGS_T_INPUT_CHANNELS g));
     ("FILTER_INPUT_WIDTH", str_of_int (_ARGS_FILTER_WIDTH g));
     ("FILTER_INPUT_CHANNELS", str_of_int (_ARGS_F_INPUT_CHANNELS g));
     ("FILTER_OUTPUT_CHANNELS", str_of_int (_ARGS_OUTPUT_CHANNELS g));
     ("FILTER_PADDING", _ARGS_PADDING g);
     ("FILTER_STRIDE", str_of_int (_ARGS_STRIDE g))].

(** The layout is one of the two [bench] knows. *)
Definition known_layout (g : args) : bool :=
  (String.eqb (_ARGS_DATA_FORMAT g) "NWC"
   || String.eqb (_ARGS_DATA_FORMAT g) "NCW")%bool.

(** The shape of the input tensor: channels last for [NWC], channels first
    otherwise. *)
Definition input_shape (g : args) (batch w c : Z) : list Z :=
  if String.eqb (_ARGS_DATA_FORMAT g) "NWC" then [batch; w; c]
  else [batch; c; w].

(** The engine calls that build and initialise the graph. *)
Definition construction (g : args) (batch w c fw fic oc : Z) : list event :=
  [Variable_ones (input_shape g batch w c) (_ARGS_DTYPE g);
   Variable_ones [fw; fic; oc] (_ARGS_DTYPE g);
   Conv1d (_ARGS_STRIDE g) (_ARGS_PADDING g) (_ARGS_DATA_FORMAT g);
   GlobalInit].

(** Globals with three repetitions and the channel-first layout, what
    [bench] returns for them on the 10 ms clock, and its two numbers. *)
Definition args_3_reps : args :=
  mkArgs "float64" "cpu" 3 "NCW" 2 7 4 3 4 5 "VALID" 1.

Definition result_3_reps : float * float :=
  match fst (bench clock_10ms engine_up args_3_reps 2 7 4 3 4 5 init) with
  | Ok r => r
  | Raise _ => (NaN, NaN)
  end.



(** Globals that ask for no repetition at all. *)
Definition args_no_reps : args :=
  mkArgs "float32" "cpu" 0 "NWC" 1 7 1 3 1 1 "SAME" 2.

(** An engine that refuses to build the convolution. *)
Definition engine_rejects_conv (tr : list event) (e : event) : option exn :=
  match e with
  | Conv1d _ _ _ =>
      Some (ValueError "input and filter must have the same depth")
  | _ => None
  end.


Definition environ_bad_layout : gmap string string :=
  {["CONV_DATA_FORMAT" := "NHWC"]}.

(** The report of a run with nothing configured. *)
Definition report_defaults : json :=
  match out (snd (run ∅ clock_10ms engine_up (Ok (JDict [])))) with
  | [JsonDump rep] => rep
  | _ => JNull
  end.

(** The suite returned, or left with a [SystemExit] whose text reads as the
    integer 0. *)
Definition survived (p : PiPyPerformance.suite) : Prop :=
  PiPyPerformance.suite_end p = Ok tt
  \/ exists args,
       PiPyPerformance.suite_end p = Raise (SystemExit args)
       /\ int (VStr (str_of_exit args)) = Ok 0.

(** The error [open] and [json.load] raise on a file that holds no
    document. *)
Definition load_error (f : PiPyPerformance.file) : exn :=
  match f with
  | PiPyPerformance.NoFile => FileNotFoundError "output.json"
  | PiPyPerformance.Text _ => JSONDecodeError
  end.

(** A suite that leaves with [sys.exit(0)] after writing its result. *)
Definition exit_0_suite : PiPyPerformance.suite :=
  PiPyPerformance.mkSuite [] [] (Raise (SystemExit (Some (AInt 0))))
    (PiPyPerformance.Text (Some (JDict [("version", JStr "1.0")]))).

(** A suite that returns without having written a result. *)
Definition suite_without_file : PiPyPerformance.suite :=
  PiPyPerformance.mkSuite [] [] (Ok tt) PiPyPerformance.NoFile.

(** A suite whose [suite.dump] fails because no benchmark produced a
    suite, with a result file left by an earlier run. *)
Definition crashing_suite : PiPyPerformance.suite :=
  PiPyPerformance.mkSuite [] []
    (Raise (AttributeError "'NoneType' object has no attribute 'dump'"))
    (PiPyPerformance.Text (Some (JDict []))).

(** A suite that leaves with a bare [sys.exit()]. *)
Definition bare_exit_suite : PiPyPerformance.suite :=
  PiPyPerformance.mkSuite [] [] (Raise (SystemExit None))
    (PiPyPerformance.Text (Some (JDict []))).

End Spec.

Create HintDb quiet.

(** ** The interpreter's exit *)

Section Exit.
Import Py Proc Spec.

Lemma exit_status_fst (m : M unit) s :
  fst (exit_status m s) = status_of (fst (m s)).
Proof.
  unfold exit_status, status_of.
  destruct (m s) as [[u|e] s']; [reflexivity|].
  destruct e as [| | | | | | | |[[]|]]; reflexivity.
Qed.

Lemma exit_status_out (m : M unit) s :
  out (snd (exit_status m s)) = out (snd (m s)).
Proof.
  unfold exit_status.
  destruct (m s) as [[u|e] s']; [reflexivity|].
  destruct e as [| | | | | | | |[[]|]]; reflexivity.
Qed.

End Exit.

(** ** The timing engine *)

Module Timing.
Import Py Proc Spec Conv1d.

Section Engine.
Variable clock : nat -> Q.
Variable engine : list event -> event -> option exn.

(** Whatever the engine does, a sample that is returned is the sequence of
    the elapsed times. *)
Lemma timed_runs_returns n : forall times s ts s',
  timed_runs clock engine n times s = (Ok ts, s') ->
  ts = times ++ durations clock (ticks s) n.
Proof.
  induction n as [|n IH]; intros times s ts s'.
  - cbn. intros [= <- _]. now rewrite app_nil_r.
  - cbn [timed_runs]. unfold mbind, M_bind, bind, time, call_engine.
    cbn [ticks trace]. destruct (engine _ RunOp); [discriminate|].
    cbn [durations]. intros H. apply IH in H. rewrite H.
    now rewrite <- app_assoc.
Qed.

Lemma measure_returns reps s ts s' :
  measure clock engine reps s = (Ok ts, s') ->
  ts = durations clock (ticks s) (Z.to_nat reps).
Proof.
  unfold measure, mbind, M_bind, bind, call_engine.
  destruct (engine _ RunOp); [discriminate|].
  intros H. now apply timed_runs_returns in H.
Qed.

(** A failure of the workload is not caught: it ends the measurement. *)
Lemma measure_warmup_failure reps s x :
  engine (trace s) RunOp = Some x ->
  fst (measure clock engine reps s) = Raise x.
Proof.
  intros H. unfold measure, mbind, M_bind, bind, call_engine.
  now rewrite H.
Qed.

Hypothesis Hruns : workload_runs engine.

Lemma timed_runs_spec n : forall times s,
  timed_runs clock engine n times s =
  (Ok (times ++ durations clock (ticks s) n),
   mkState (sys_stdout s) (out s) (err s) (ticks s + 2 * n)
     (trace s ++ concat (replicate n repetition))).
Proof.
  induction n as [|n IH]; intros times s.
  - cbn. rewrite !app_nil_r, Nat.add_0_r. now destruct s.
  - cbn [timed_runs].
    unfold mbind, M_bind, bind, time, call_engine. cbn [ticks trace].
    rewrite Hruns, IH. cbn. f_equal.
    + now rewrite <- app_assoc.
    + f_equal; [lia|]. now rewrite <- !app_assoc.
Qed.

Lemma measure_spec reps s :
  measure clock engine reps s =
  (Ok (durations clock (ticks s) (Z.to_nat reps)),
   mkState (sys_stdout s) (out s) (err s) (ticks s + 2 * Z.to_nat reps)
     (trace s ++ RunOp :: concat (replicate (Z.to_nat reps) repetition))).
Proof.
  unfold measure, mbind, M_bind, bind, call_engine.
  rewrite Hruns, timed_runs_spec. cbn. now rewrite <- app_assoc.
Qed.

End Engine.

Lemma length_durations clock t0 n : length (durations clock t0 n) = n.
Proof. revert t0. induction n; intros; cbn; auto. Qed.

Lemma runs_app tr1 tr2 : runs (tr1 ++ tr2) = (runs tr1 + runs tr2)%nat.
Proof. unfold runs. now rewrite List.filter_app, length_app. Qed.

Lemma runs_repetitions n : runs (concat (replicate n repetition)) = n.
Proof.
  induction n as [|n IH]; [reflexivity|].
  cbn [replicate concat]. rewrite runs_app, IH. reflexivity.
Qed.

(** C1.  For every repetition count [r >= 1] and a workload that runs, the
    timing engine runs the workload once without reading the clock (the
    warm-up), then [r] more times with one clock reading before and one
    after each run; the workload is executed [r + 1] times in all, and the
    sample returned has exactly [r] entries, the elapsed times of the [r]
    measured runs. *)
Theorem measure_warmup_then_r_samples
    (clock : nat -> Q) (engine : list event -> event -> option exn)
    (r : Z) (s : state) :
  1 <= r ->
  workload_runs engine ->
  exists times s',
    measure clock engine r s = (Ok times, s')
    /\ trace s'
       = trace s ++ [RunOp] ++ concat (replicate (Z.to_nat r) repetition)
    /\ Z.of_nat (runs (trace s')) = Z.of_nat (runs (trace s)) + r + 1
    /\ Z.of_nat (length times) = r
    /\ times = durations clock (ticks s) (Z.to_nat r).
Proof.
  intros Hr Hruns. eexists _, _. split; [now apply measure_spec|].
  cbn [trace]. repeat split.
  - change (RunOp :: ?l) with ([RunOp] ++ l).
    rewrite !runs_app, runs_repetitions. cbn. lia.
  - rewrite length_durations. lia.
Qed.

Lemma measure_warmup_then_r_samples_witness :
  exists times s',
    measure clock_10ms engine_up 3 init = (Ok times, s')
    /\ trace s'
       = trace init ++ [RunOp] ++ concat (replicate (Z.to_nat 3) repetition)
    /\ Z.of_nat (runs (trace s')) = Z.of_nat (runs (trace init)) + 3 + 1
    /\ Z.of_nat (length times) = 3
    /\ times = durations clock_10ms (ticks init) (Z.to_nat 3).
Proof.
  apply (measure_warmup_then_r_samples clock_10ms engine_up 3 init).
  - lia.
  - intros tr. reflexivity.
Defined.

End Timing.

(** ** Cost model and rate *)

Module Metrics.
Import Py Proc Spec Conv1d.

(** C2.  For every parameter set (stride not zero, as a stride is), the
    operation count is [batch * input_width * filter_width * input_channels
    * output_channels * 2 / stride], a true division and not a floor; for
    batch 1, width 7, channels 1, filter width 3, output channels 1 and
    stride 2 it is 21. *)
Theorem total_operations_formula (g : args) (batch w c fw oc : Z) :
  _ARGS_STRIDE g <> 0 ->
  (exists ops,
     total_operations g batch w c fw oc = Ok ops
     /\ (ops == inject_Z batch * inject_Z w * inject_Z fw * inject_Z c
                * inject_Z oc * 2 / inject_Z (_ARGS_STRIDE g))%Q)
  /\ (exists ops,
        total_operations scenario_A 1 7 1 3 1 = Ok ops /\ (ops == 21)%Q).
Proof.
  intros Hs. split.
  - unfold total_operations, int_truediv.
    destruct (Z.eqb_spec (_ARGS_STRIDE g) 0) as [E|_]; [contradiction|].
    eexists. split; [reflexivity|].
    rewrite !inject_Z_mult. reflexivity.
  - eexists. split; [reflexivity|]. reflexivity.
Qed.

Lemma total_operations_formula_witness :
  (exists ops,
     total_operations scenario_A 3 7 2 3 1 = Ok ops
     /\ (ops == inject_Z 3 * inject_Z 7 * inject_Z 3 * inject_Z 2
                * inject_Z 1 * 2 / inject_Z (_ARGS_STRIDE scenario_A))%Q)
  /\ (exists ops,
        total_operations scenario_A 1 7 1 3 1 = Ok ops /\ (ops == 21)%Q).
Proof.
  apply (total_operations_formula scenario_A 3 7 2 3 1). cbn. lia.
Defined.




End Metrics.

(** ** The reducer *)

Module Median.
Import Py Np Spec Conv1d.

Lemma insert_perm x l : Permutation (insert x l) (x :: l).
Proof.
  induction l as [|y l IH]; cbn; [reflexivity|].
  destruct (Qle_bool x y); [reflexivity|].
  rewrite IH. apply perm_swap.
Qed.

Lemma sort_perm l : Permutation (sort l) l.
Proof.
  induction l as [|x l IH]; cbn; [reflexivity|].
  rewrite insert_perm. now constructor.
Qed.

Lemma insert_sorted x l :
  StronglySorted Qle l -> StronglySorted Qle (insert x l).
Proof.
  induction 1 as [|y l Hs IH Hy]; cbn.
  - repeat constructor.
  - destruct (Qle_bool x y) eqn:E.
    + apply Qle_bool_iff in E. constructor; [now constructor|].
      constructor; [exact E|].
      eapply List.Forall_impl; [|exact Hy]. intros z Hz. cbn in Hz.
      eapply Qle_trans; eauto.
    + assert (Hyx : (y <= x)%Q).
      { destruct (Qlt_le_dec y x) as [H|H]; [now apply Qlt_le_weak|].
        apply Qle_bool_iff in H. congruence. }
      constructor; [exact IH|].
      eapply Permutation_Forall; [symmetry; apply insert_perm|].
      now constructor.
Qed.

Lemma sort_sorted l : StronglySorted Qle (sort l).
Proof. induction l; cbn; [constructor|now apply insert_sorted]. Qed.

Lemma count_le_perm m l l' : Permutation l l' -> count_le m l = count_le m l'.
Proof.
  unfold count_le. induction 1; cbn; auto.
  - destruct (Qle_bool x m); cbn; auto.
  - destruct (Qle_bool x m), (Qle_bool y m); cbn; auto.
  - congruence.
Qed.

Lemma count_ge_perm m l l' : Permutation l l' -> count_ge m l = count_ge m l'.
Proof.
  unfold count_ge. induction 1; cbn; auto.
  - destruct (Qle_bool m x); cbn; auto.
  - destruct (Qle_bool m x), (Qle_bool m y); cbn; auto.
  - congruence.
Qed.

Lemma sorted_split l1 x l2 :
  StronglySorted Qle (l1 ++ x :: l2) ->
  Forall (fun y => (y <= x)%Q) l1 /\ Forall (fun y => (x <= y)%Q) l2.
Proof.
  induction l1 as [|a l1 IH]; cbn; intros H.
  - inversion H; subst. split; [constructor|assumption].
  - inversion H as [|? ? Hs Ha]; subst. destruct (IH Hs) as [H1 H2].
    split; [|exact H2]. constructor; [|exact H1].
    rewrite Forall_app in Ha. destruct Ha as [_ Ha]. now inversion Ha.
Qed.

Lemma count_le_all m l :
  Forall (fun y => (y <= m)%Q) l -> count_le m l = length l.
Proof.
  unfold count_le. induction 1 as [|y l Hy _ IH]; cbn; [reflexivity|].
  apply Qle_bool_iff in Hy. rewrite Hy. cbn. now rewrite IH.
Qed.

Lemma count_ge_all m l :
  Forall (fun y => (m <= y)%Q) l -> count_ge m l = length l.
Proof.
  unfold count_ge. induction 1 as [|y l Hy _ IH]; cbn; [reflexivity|].
  apply Qle_bool_iff in Hy. rewrite Hy. cbn. now rewrite IH.
Qed.

Lemma count_le_app m l1 l2 :
  count_le m (l1 ++ l2) = (count_le m l1 + count_le m l2)%nat.
Proof. unfold count_le. now rewrite List.filter_app, length_app. Qed.
Lemma count_ge_app m l1 l2 :
  count_ge m (l1 ++ l2) = (count_ge m l1 + count_ge m l2)%nat.
Proof. unfold count_ge. now rewrite List.filter_app, length_app. Qed.

(** a value between the two ends of a split of a sorted list *)
Lemma is_median_between s l1 l2 m a b :
  s = l1 ++ l2 ->
  Forall (fun y => (y <= a)%Q) l1 -> Forall (fun y => (b <= y)%Q) l2 ->
  (a <= m)%Q -> (m <= b)%Q ->
  (length l1 <= count_le m s)%nat /\ (length l2 <= count_ge m s)%nat.
Proof.
  intros -> H1 H2 Ha Hb. rewrite count_le_app, count_ge_app.
  rewrite (count_le_all m l1), (count_ge_all m l2); [lia| |].
  - eapply List.Forall_impl; [|exact H2]. intros z Hz; cbn in *.
    eapply Qle_trans; eauto.
  - eapply List.Forall_impl; [|exact H1]. intros z Hz; cbn in *.
    eapply Qle_trans; eauto.
Qed.

Lemma length_sort l : length (sort l) = length l.
Proof. apply Permutation_length, sort_perm. Qed.

Lemma drop_cons_of_lt (s : list Q) k :
  (k < length s)%nat ->
  exists x l2, drop k s = x :: l2 /\ s = take k s ++ x :: l2
               /\ length l2 = (length s - k - 1)%nat.
Proof.
  intros Hk. destruct (drop k s) as [|x l2] eqn:E.
  - apply (f_equal length) in E. rewrite length_drop in E. cbn in E. lia.
  - exists x, l2. split; [reflexivity|]. split.
    + rewrite <- E. symmetry. apply take_drop.
    + apply (f_equal length) in E. rewrite length_drop in E. cbn in E. lia.
Qed.

Lemma median_odd l :
  (length l mod 2 = 1)%nat ->
  exists l1 x l2,
    sort l = l1 ++ x :: l2
    /\ length l1 = (length l / 2)%nat /\ length l2 = (length l / 2)%nat
    /\ median l = Fin ((0 + x) / inject_Z 1).
Proof.
  intros Hodd.
  pose proof (Nat.div_mod_eq (length l) 2) as Hdm.
  set (h := (length l / 2)%nat) in *.
  destruct (drop_cons_of_lt (sort l) h) as (x & l2 & Hd & Hs & Hl2).
  { rewrite length_sort. lia. }
  exists (take h (sort l)), x, l2. split; [exact Hs|].
  rewrite length_sort in Hl2.
  split; [rewrite length_take, length_sort; lia|]. split; [lia|].
  unfold median. fold h. rewrite Hodd. cbn [Nat.eqb].
  unfold slice. rewrite Hd. replace (h + 1 - h)%nat with 1%nat by lia.
  reflexivity.
Qed.

Lemma median_even l :
  l <> [] -> (length l mod 2 <> 1)%nat ->
  exists l1 a b l2,
    sort l = l1 ++ a :: b :: l2
    /\ S (length l1) = (length l / 2)%nat /\ S (length l2) = (length l / 2)%nat
    /\ median l = Fin ((0 + a + b) / inject_Z 2).
Proof.
  intros Hne Heven.
  pose proof (Nat.div_mod_eq (length l) 2) as Hdm.
  pose proof (Nat.mod_upper_bound (length l) 2 ltac:(lia)) as Hub.
  assert (Hpos : (0 < length l)%nat) by (destruct l; [congruence|cbn; lia]).
  set (h := (length l / 2)%nat) in *.
  destruct (drop_cons_of_lt (sort l) (h - 1)) as (a & l2 & Hd & Hs & Hl2).
  { rewrite length_sort. lia. }
  rewrite length_sort in Hl2.
  destruct l2 as [|b l2]; [cbn [length] in Hl2; lia|].
  exists (take (h - 1) (sort l)), a, b, l2. split; [exact Hs|].
  split; [rewrite length_take, length_sort; lia|].
  split; [cbn [length] in Hl2; lia|].
  unfold median. fold h.
  destruct (Nat.eqb_spec (length l mod 2) 1) as [E|_]; [contradiction|].
  unfold slice. rewrite Hd. replace (h + 1 - (h - 1))%nat with 2%nat by lia.
  reflexivity.
Qed.

Lemma median_odd_is_median l l1 x l2 m :
  sort l = l1 ++ x :: l2 -> length l1 = length l2 -> (m == x)%Q ->
  is_median m l.
Proof.
  intros Hs Hlen Hm.
  pose proof (sort_sorted l) as Hsorted. rewrite Hs in Hsorted.
  destruct (sorted_split _ _ _ Hsorted) as [H1 H2].
  assert (Hn : length l = (length l1 + S (length l2))%nat).
  { rewrite <- (length_sort l), Hs, length_app. reflexivity. }
  unfold is_median.
  rewrite (count_le_perm m l (sort l)), (count_ge_perm m l (sort l))
    by (symmetry; apply sort_perm).
  destruct (is_median_between (sort l) (l1 ++ [x]) l2 m x x) as [Hle _].
  { rewrite Hs, <- app_assoc. reflexivity. }
  { apply Forall_app. split; [exact H1|]. repeat constructor. apply Qle_refl. }
  { exact H2. }
  { rewrite Hm. apply Qle_refl. }
  { rewrite Hm. apply Qle_refl. }
  destruct (is_median_between (sort l) l1 (x :: l2) m x x) as [_ Hge].
  { exact Hs. }
  { exact H1. }
  { constructor; [apply Qle_refl|exact H2]. }
  { rewrite Hm. apply Qle_refl. }
  { rewrite Hm. apply Qle_refl. }
  rewrite length_app in Hle. cbn [length] in Hle, Hge. lia.
Qed.

Lemma median_even_is_median l l1 a b l2 m :
  sort l = l1 ++ a :: b :: l2 -> length l1 = length l2 ->
  (m == (a + b) / 2)%Q ->
  is_median m l.
Proof.
  intros Hs Hlen Hm.
  pose proof (sort_sorted l) as Hsorted. rewrite Hs in Hsorted.
  destruct (sorted_split _ _ _ Hsorted) as [H1 H2].
  assert (Hab : (a <= b)%Q) by now inversion H2.
  assert (Hsorted' : StronglySorted Qle ((l1 ++ [a]) ++ b :: l2))
    by now rewrite <- app_assoc.
  destruct (sorted_split _ _ _ Hsorted') as [_ H4].
  assert (Hn : length l = (length l1 + S (S (length l2)))%nat).
  { rewrite <- (length_sort l), Hs, length_app. reflexivity. }
  unfold is_median.
  rewrite (count_le_perm m l (sort l)), (count_ge_perm m l (sort l))
    by (symmetry; apply sort_perm).
  destruct (is_median_between (sort l) (l1 ++ [a]) (b :: l2) m a b)
    as [Hle Hge].
  { rewrite Hs, <- app_assoc. reflexivity. }
  { apply Forall_app. split; [exact H1|]. repeat constructor. apply Qle_refl. }
  { constructor; [apply Qle_refl|exact H4]. }
  { rewrite Hm. apply Qle_shift_div_l; [reflexivity|]. lra. }
  { rewrite Hm. apply Qle_shift_div_r; [reflexivity|]. lra. }
  rewrite length_app in Hle. cbn [length] in Hle, Hge. lia.
Qed.

Lemma Qle_bool_scale c x y :
  (0 < c)%Q -> Qle_bool (c * x) (c * y) = Qle_bool x y.
Proof.
  intros Hc. apply eq_true_iff_eq. rewrite !Qle_bool_iff.
  now apply Qmult_le_l.
Qed.

Lemma insert_scale c x l :
  (0 < c)%Q ->
  insert (c * x) (map (Qmult c) l) = map (Qmult c) (insert x l).
Proof.
  intros Hc. induction l as [|y l IH]; cbn; [reflexivity|].
  rewrite Qle_bool_scale by exact Hc.
  destruct (Qle_bool x y); cbn; [reflexivity|]. now rewrite IH.
Qed.

Lemma sort_scale c l :
  (0 < c)%Q -> sort (map (Qmult c) l) = map (Qmult c) (sort l).
Proof.
  intros Hc. induction l as [|x l IH]; cbn; [reflexivity|].
  rewrite IH. now apply insert_scale.
Qed.

Lemma median_scale c l m :
  (0 < c)%Q -> median l = Fin m ->
  exists m', median (map (Qmult c) l) = Fin m' /\ (m' == c * m)%Q.
Proof.
  intros Hc. unfold median.
  rewrite sort_scale, length_map by exact Hc.
  set (h := (length l / 2)%nat).
  assert (Hmean : forall s, mean s = Fin m ->
            exists m', mean (map (Qmult c) s) = Fin m' /\ (m' == c * m)%Q).
  { intros s Hs. destruct s as [|x s]; [discriminate|].
    cbn [map]. unfold mean in *. injection Hs as <-.
    eexists. split; [reflexivity|]. cbn [length]. rewrite length_map.
    set (k := inject_Z (Z.of_nat (S (length s)))).
    assert (Hsum : forall t a b, (b == c * a)%Q ->
              (fold_left Qplus (map (Qmult c) t) b
               == c * fold_left Qplus t a)%Q).
    { induction t as [|y t IHt]; intros a b Hab; cbn; [exact Hab|].
      apply IHt. rewrite Hab. ring. }
    unfold sum. rewrite (Hsum (x :: s) 0%Q 0%Q) by ring.
    unfold Qdiv. ring. }
  unfold slice. intros Hm.
  destruct (length l mod 2 =? 1)%nat;
    rewrite skipn_map, firstn_map; now apply Hmean.
Qed.

(** C4.  For every non-empty sample, [np.median] returns its statistical
    median, not its mean: the middle entry of the sorted sample, or the
    average of the two middle entries for an even size.  Converting the
    sample to milliseconds first, as [bench] does, converts the median.
    [[3,1,2]] gives 2 and [[4,1,2,3]] gives 2.5; the median of [[1,2,9]] is
    2 while its mean is 4. *)
Theorem median_is_statistical_median (sample : list Q) :
  sample <> [] ->
  (exists m,
     median sample = Fin m
     /\ is_median m sample
     /\ (exists s,
           Permutation s sample /\ StronglySorted Qle s /\ middle s m)
     /\ (exists m',
           median (times_ms sample) = Fin m' /\ (m' == 1000 * m)%Q))
  /\ feq (median [3; 1; 2]%Q) (Fin 2)
  /\ feq (median [4; 1; 2; 3]%Q) (Fin (5 # 2))
  /\ (feq (median [1; 2; 9]%Q) (Fin 2)
      /\ feq (mean [1; 2; 9]%Q) (Fin 4)).
Proof.
  intros Hne. split; [|vm_compute; repeat split].
  pose proof (Nat.div_mod_eq (length sample) 2) as Hdm.
  pose proof (Nat.mod_upper_bound (length sample) 2 ltac:(lia)) as Hub.
  destruct (Nat.eq_dec (length sample mod 2)%nat 1%nat) as [Hodd|Heven].
  - destruct (median_odd sample Hodd) as (l1 & x & l2 & Hs & H1 & H2 & Hm).
    assert (Hx : ((0 + x) / inject_Z 1 == x)%Q) by (cbn [inject_Z]; field).
    eexists. split; [exact Hm|]. split; [|split].
    + eapply median_odd_is_median; [exact Hs|congruence|exact Hx].
    + exists (sort sample).
      split; [apply sort_perm|]. split; [apply sort_sorted|].
      unfold middle. rewrite length_sort. split.
      * intros _. exists x. split; [|exact Hx].
        rewrite Hs. now apply list_lookup_middle.
      * intros [k Hk]. lia.
    + unfold times_ms. now apply median_scale.
  - destruct (median_even sample Hne Heven)
      as (l1 & a & b & l2 & Hs & H1 & H2 & Hm).
    assert (Hab : ((0 + a + b) / inject_Z 2 == (a + b) / 2)%Q)
      by (cbn [inject_Z]; field).
    eexists. split; [exact Hm|]. split; [|split].
    + eapply median_even_is_median; [exact Hs|congruence|exact Hab].
    + exists (sort sample).
      split; [apply sort_perm|]. split; [apply sort_sorted|].
      unfold middle. rewrite length_sort. split.
      * intros [k Hk]. lia.
      * intros _. exists a, b. split; [|split; [|exact Hab]].
        -- rewrite Hs. apply list_lookup_middle. lia.
        -- rewrite Hs.
           change (l1 ++ a :: b :: l2) with (l1 ++ [a] ++ b :: l2).
           rewrite app_assoc. apply list_lookup_middle.
           rewrite length_app. cbn [length]. lia.
    + unfold times_ms. now apply median_scale.
Qed.

Lemma median_is_statistical_median_witness :
  (exists m,
     median [4; 1; 2; 3]%Q = Fin m
     /\ is_median m [4; 1; 2; 3]%Q
     /\ (exists s,
           Permutation s [4; 1; 2; 3]%Q /\ StronglySorted Qle s /\ middle s m)
     /\ (exists m',
           median (times_ms [4; 1; 2; 3]%Q) = Fin m' /\ (m' == 1000 * m)%Q))
  /\ feq (median [3; 1; 2]%Q) (Fin 2)
  /\ feq (median [4; 1; 2; 3]%Q) (Fin (5 # 2))
  /\ (feq (median [1; 2; 9]%Q) (Fin 2)
      /\ feq (mean [1; 2; 9]%Q) (Fin 4)).
Proof.
  apply (median_is_statistical_median [4; 1; 2; 3]%Q). discriminate.
Defined.

End Median.

(** ** Parameter resolution *)

Module Resolver.
Import Py Proc Spec Conv1d.

Section Resolve.
Variable environ : gmap string string.

Lemma int_str_raise v e :
  int (VStr v) = Raise e -> exists msg, e = ValueError msg.
Proof.
  unfold int. destruct (parse_int _); [discriminate|]. intros [= <-]. eauto.
Qed.

Lemma int_param_spec label key d s :
  int_param environ label key d s =
  match int (getenv environ key (VInt d)) with
  | Ok z =>
      (Ok z,
       snd (print_stderr (Line (label +:+ " set to " +:+ str_of_int z)) s))
  | Raise e => (Raise e, s)
  end.
Proof.
  unfold int_param, mbind, M_bind, bind, lift.
  destruct (int (getenv environ key (VInt d))); reflexivity.
Qed.

Lemma getenv_ok key d z :
  int (getenv environ key (VInt d)) = Ok z ->
  parses environ key = true /\ int_or_default environ key d = z.
Proof.
  unfold getenv, parses, int_or_default.
  destruct (environ !! key) as [v|].
  - intros ->. now split.
  - cbn. intros [= <-]. now split.
Qed.

Lemma getenv_raise key d e :
  int (getenv environ key (VInt d)) = Raise e ->
  parses environ key = false /\ exists msg, e = ValueError msg.
Proof.
  unfold getenv, parses.
  destruct (environ !! key) as [v|]; [|discriminate].
  intros H. rewrite H. split; [reflexivity|]. exact (int_str_raise _ _ H).
Qed.

Lemma str_param_spec label key d s :
  str_param environ label key d s =
  (Ok (getenv_str environ key d),
   snd (print_stderr
          (Line (label +:+ " set to " +:+ getenv_str environ key d)) s)).
Proof. reflexivity. Qed.

Ltac step_int :=
  rewrite ?str_param_spec; cbv beta iota;
  rewrite int_param_spec;
  match goal with
  | |- context [int (getenv environ ?key (VInt ?d))] =>
      let P := fresh "P" in
      destruct (int (getenv environ key (VInt d))) as [?z|?e] eqn:P;
      [ apply getenv_ok in P as [-> ->]
      | apply getenv_raise in P as [-> ?];
        cbv beta iota; split; [reflexivity|split; [assumption|reflexivity]] ]
  end;
  cbv beta iota.

Lemma resolve_cases s :
  match resolve environ s with
  | (Ok g, s') =>
      well_formed environ = true /\ g = resolve_with_fallback environ
      /\ out s' = out s /\ sys_stdout s' = sys_stdout s /\ ticks s' = ticks s
  | (Raise e, s') =>
      well_formed environ = false /\ (exists msg, e = ValueError msg)
      /\ out s' = out s
  end.
Proof.
  unfold resolve, well_formed, resolve_with_fallback, int_keys.
  cbn [forallb].
  unfold mbind, M_bind, bind.
  do 8 step_int.
  rewrite ?str_param_spec. repeat split.
Qed.
End Resolve.



(** C9.  When [FILTER_INPUT_CHANNELS] is unset, the resolved filter input
    channels are the resolved tensor input channels: the value of
    [TENSOR_INPUT_CHANNELS] when that is set, and 1 when it is not. *)
Theorem filter_input_channels_default_is_tensor_input_channels
    (environ : gmap string string) (s s' : state) (g : args) :
  environ !! "FILTER_INPUT_CHANNELS" = None ->
  resolve environ s = (Ok g, s') ->
  _ARGS_F_INPUT_CHANNELS g = _ARGS_T_INPUT_CHANNELS g
  /\ (forall v k,
        environ !! "TENSOR_INPUT_CHANNELS" = Some v ->
        int (VStr v) = Ok k ->
        _ARGS_F_INPUT_CHANNELS g = k)
  /\ (environ !! "TENSOR_INPUT_CHANNELS" = None ->
      _ARGS_F_INPUT_CHANNELS g = 1).
Proof.
  intros Hunset Hres.
  pose proof (resolve_cases environ s) as H. rewrite Hres in H.
  destruct H as (_ & -> & _).
  unfold resolve_with_fallback.
  cbn [_ARGS_F_INPUT_CHANNELS _ARGS_T_INPUT_CHANNELS].
  unfold int_or_default. rewrite Hunset.
  split; [reflexivity|]. split.
  - intros v k Hv Hk. rewrite Hv. now rewrite Hk.
  - intros Hv. now rewrite Hv.
Qed.

Lemma filter_input_channels_default_is_tensor_input_channels_witness :
  environ_5_channels !! "FILTER_INPUT_CHANNELS" = None
  /\ fst (resolve environ_5_channels init) = Ok args_5_channels
  /\ _ARGS_F_INPUT_CHANNELS args_5_channels = 5.
Proof.
  split; [vm_compute; reflexivity|]. split; [vm_compute; reflexivity|].
  apply (filter_input_channels_default_is_tensor_input_channels
           environ_5_channels init (snd (resolve environ_5_channels init))
           args_5_channels) with (v := "5").
  - vm_compute. reflexivity.
  - vm_compute. reflexivity.
  - vm_compute. reflexivity.
  - vm_compute. reflexivity.
Defined.

End Resolver.

(** ** The numeric driver as a whole *)

Module Driver.
Import Py Proc Spec Conv1d Resolver.

Section Quiet.

Lemma quiet_ret {A} (a : A) : quiet (mret a).
Proof. now intros s. Qed.

Lemma quiet_raise {A} e : quiet (@raise A e).
Proof. now intros s. Qed.

Lemma quiet_lift {A} (r : result A) : quiet (lift r).
Proof. now intros s. Qed.

Lemma quiet_bind {A B} (m : M A) (k : A -> M B) :
  quiet m -> (forall a, quiet (k a)) -> quiet (m ≫= k).
Proof.
  intros Hm Hk s. unfold mbind, M_bind, bind.
  specialize (Hm s). destruct (m s) as [[a|e] s1]; cbn in *; [|exact Hm].
  specialize (Hk a s1). destruct Hk as [-> ->]. exact Hm.
Qed.

Lemma quiet_print_stderr c : quiet (print_stderr c).
Proof. now intros s. Qed.

Lemma quiet_call_engine engine e : quiet (call_engine engine e).
Proof. now intros s. Qed.

Lemma quiet_time clock : quiet (time clock).
Proof. now intros s. Qed.

Lemma quiet_try_except_Exception {A} (m : M A) h :
  quiet m -> (forall e, quiet (h e)) -> quiet (try_except_Exception m h).
Proof.
  intros Hm Hh s. unfold try_except_Exception.
  specialize (Hm s). destruct (m s) as [[a|e] s1]; cbn in *; [exact Hm|].
  destruct (is_Exception e); [|exact Hm].
  specialize (Hh e s1). destruct Hh as [-> ->]. exact Hm.
Qed.

Lemma quiet_if {A} (b : bool) (m1 m2 : M A) :
  quiet m1 -> quiet m2 -> quiet (if b then m1 else m2).
Proof. now destruct b. Qed.

End Quiet.

#[export] Hint Resolve quiet_ret quiet_raise quiet_lift quiet_print_stderr
  quiet_call_engine quiet_time quiet_if : quiet.
#[export] Hint Extern 2 (quiet (_ ≫= _)) =>
  apply quiet_bind; [|intros ?] : quiet.
#[export] Hint Extern 2 (quiet (try_except_Exception _ _)) =>
  apply quiet_try_except_Exception; [|intros ?] : quiet.

Section Process.
Variable environ : gmap string string.
Variable clock : nat -> Q.
Variable engine : list event -> event -> option exn.
Variable probe : result json.

Lemma quiet_timed_runs n :
  forall times, quiet (timed_runs clock engine n times).
Proof. induction n; intros; cbn [timed_runs]; auto 10 with quiet. Qed.

Lemma quiet_measure reps : quiet (measure clock engine reps).
Proof. unfold measure. pose proof quiet_timed_runs. auto with quiet. Qed.

Lemma quiet_bench g b w c fw fic oc :
  quiet (bench clock engine g b w c fw fic oc).
Proof. unfold bench. pose proof quiet_measure. auto 20 with quiet. Qed.

Lemma quiet_resolve : quiet (resolve environ).
Proof. unfold resolve, int_param, str_param. auto 40 with quiet. Qed.

Lemma quiet_build_info : quiet (_get_aicoe_tensorflow_build_info probe).
Proof. unfold _get_aicoe_tensorflow_build_info. auto with quiet. Qed.

Lemma bench_rest_returns g b w c fw fic oc s r s' :
  bench_rest clock engine g b w c fw fic oc s = (Ok r, s') ->
  match total_operations g b w c fw oc with
  | Ok ops =>
      let elapsed_ms :=
        Np.median
          (times_ms (durations clock (ticks s) (Z.to_nat (_ARGS_REPS g)))) in
      r = (derive_rate ops elapsed_ms, elapsed_ms)
  | Raise _ => False
  end.
Proof.
  unfold bench_rest. unfold mbind at 1 2 3, M_bind at 1 2 3, bind at 1 2 3.
  unfold call_engine at 1 2 3. cbn [trace ticks].
  repeat (destruct (engine _ _); [discriminate|]).
  unfold mbind at 1, M_bind at 1, bind at 1.
  destruct (measure clock engine (_ARGS_REPS g) _) as [[ts|x] s1] eqn:Hm;
    [|discriminate].
  apply Timing.measure_returns in Hm. cbn [ticks] in Hm. subst ts.
  unfold mbind, M_bind, bind, lift.
  destruct (total_operations g b w c fw oc); [|discriminate].
  cbn. now intros [= <- _].
Qed.

(** Whatever the engine does, a value [bench] returns is the value of the
    sample it measured. *)
Lemma bench_returns g b w c fw fic oc s r s' :
  bench clock engine g b w c fw fic oc s = (Ok r, s') ->
  bench_value g b w c fw oc
    (durations clock (ticks s) (Z.to_nat (_ARGS_REPS g))) = Ok r.
Proof.
  unfold bench, bench_value. fold (bench_rest clock engine g b w c fw fic oc).
  unfold mbind, M_bind, bind.
  destruct (String.eqb (_ARGS_DATA_FORMAT g) "NWC"); cbn [orb];
    [|destruct (String.eqb (_ARGS_DATA_FORMAT g) "NCW")];
    try discriminate.
  all: unfold call_engine; cbn [trace ticks].
  all: destruct (engine _ _); [discriminate|].
  all: intros H; apply bench_rest_returns in H; cbn [ticks] in H.
  all: destruct (total_operations g b w c fw oc); [now subst|contradiction].
Qed.

Lemma emit_cases g r s :
  sys_stdout s = Fd1 ->
  match probe_value probe with
  | Ok bi =>
      fst (emit probe g r s) = Ok tt
      /\ out (snd (emit probe g r s))
         = out s ++ [JsonDump (report g r.1 r.2 bi)]
  | Raise e =>
      fst (emit probe g r s) = Raise e /\ out (snd (emit probe g r s)) = out s
  end.
Proof.
  intros Hfd.
  unfold emit, _get_aicoe_tensorflow_build_info, try_except_Exception, lift,
    probe_value, write_sys_stdout, mbind, M_bind, bind.
  destruct probe as [j|e]; [|destruct (is_Exception e)]; cbn;
    rewrite ?Hfd; now cbn.
Qed.

Lemma main_cases g s :
  sys_stdout s = Fd1 ->
  match fst (bench clock engine g (_ARGS_BATCH g) (_ARGS_INPUT_WIDTH g)
               (_ARGS_T_INPUT_CHANNELS g) (_ARGS_FILTER_WIDTH g)
               (_ARGS_F_INPUT_CHANNELS g) (_ARGS_OUTPUT_CHANNELS g)
               (snd (print_stderr VersionLine s))) with
  | Ok r =>
      match probe_value probe with
      | Ok bi =>
          fst (main clock engine probe g s) = Ok tt
          /\ out (snd (main clock engine probe g s))
             = out s ++ [JsonDump (report g r.1 r.2 bi)]
      | Raise e =>
          fst (main clock engine probe g s) = Raise e
          /\ out (snd (main clock engine probe g s)) = out s
      end
  | Raise e =>
      fst (main clock engine probe g s) = Raise e
      /\ out (snd (main clock engine probe g s)) = out s
  end.
Proof.
  intros Hfd.
  change (main clock engine probe g s)
    with (match bench clock engine g (_ARGS_BATCH g) (_ARGS_INPUT_WIDTH g)
                  (_ARGS_T_INPUT_CHANNELS g) (_ARGS_FILTER_WIDTH g)
                  (_ARGS_F_INPUT_CHANNELS g) (_ARGS_OUTPUT_CHANNELS g)
                  (snd (print_stderr VersionLine s)) with
          | (Ok r, s1) => emit probe g r s1
          | (Raise e, s1) => (Raise e, s1)
          end).
  pose proof (quiet_bench g (_ARGS_BATCH g) (_ARGS_INPUT_WIDTH g)
    (_ARGS_T_INPUT_CHANNELS g) (_ARGS_FILTER_WIDTH g)
    (_ARGS_F_INPUT_CHANNELS g) (_ARGS_OUTPUT_CHANNELS g)
    (snd (print_stderr VersionLine s))) as [Hq1 Hq2].
  destruct (bench clock engine g _ _ _ _ _ _ _) as [[r|e] s1];
    cbn [fst snd] in *; [|now split].
  change (out (snd (print_stderr VersionLine s))) with (out s) in Hq1.
  change (sys_stdout (snd (print_stderr VersionLine s)))
    with (sys_stdout s) in Hq2.
  rewrite Hfd in Hq2. pose proof (emit_cases g r s1 Hq2) as He.
  rewrite Hq1 in He. exact He.
Qed.

(** Exit status and standard output of a run, by the way its stages end. *)
Lemma run_cases :
  match resolve environ init with
  | (Ok g, s1) =>
      match fst (bench clock engine g (_ARGS_BATCH g) (_ARGS_INPUT_WIDTH g)
                   (_ARGS_T_INPUT_CHANNELS g) (_ARGS_FILTER_WIDTH g)
                   (_ARGS_F_INPUT_CHANNELS g) (_ARGS_OUTPUT_CHANNELS g)
                   (snd (print_stderr VersionLine s1))) with
      | Ok r =>
          match probe_value probe with
          | Ok bi =>
              fst (run environ clock engine probe) = 0
              /\ out (snd (run environ clock engine probe))
                 = [JsonDump (report g r.1 r.2 bi)]
          | Raise e =>
              fst (run environ clock engine probe) = status_of (Raise e)
              /\ out (snd (run environ clock engine probe)) = []
          end
      | Raise e =>
          fst (run environ clock engine probe) = status_of (Raise e)
          /\ out (snd (run environ clock engine probe)) = []
      end
  | (Raise e, _) =>
      fst (run environ clock engine probe) = 1
      /\ out (snd (run environ clock engine probe)) = []
  end.
Proof.
  unfold run. rewrite exit_status_fst, exit_status_out.
  unfold script, mbind, M_bind, bind.
  pose proof (resolve_cases environ init) as H.
  destruct (resolve environ init) as [[g|e] s1].
  - destruct H as (_ & _ & Ho & Hfd & _).
    pose proof (main_cases g s1 Hfd) as Hm.
    destruct (fst (bench clock engine g _ _ _ _ _ _ _)) as [r|e];
      [destruct (probe_value probe) as [bi|e]|];
      destruct Hm as [-> ->]; now rewrite Ho.
  - destruct H as (_ & [msg ->] & Ho). cbn. now rewrite Ho.
Qed.

(** Standard output of the numeric driver is the report or nothing. *)
Lemma stdout_is_the_report_or_empty :
  out (snd (run environ clock engine probe)) = []
  \/ (fst (run environ clock engine probe) = 0
      /\ exists rep,
           out (snd (run environ clock engine probe)) = [JsonDump rep]).
Proof.
  pose proof run_cases as H.
  destruct (resolve environ init) as [[g|e] s1]; [|left; apply H].
  destruct (fst (bench clock engine g _ _ _ _ _ _ _)) as [r|e];
    [|left; apply H].
  destruct (probe_value probe) as [bi|e]; [|left; apply H].
  right. destruct H as [-> ->]. eauto.
Qed.

Hypothesis Hup : never_fails engine.

Lemma bench_result g b w c fw fic oc s :
  fst (bench clock engine g b w c fw fic oc s) =
  bench_value g b w c fw oc
    (durations clock (ticks s) (Z.to_nat (_ARGS_REPS g))).
Proof.
  assert (Hruns : workload_runs engine) by (intros tr; apply Hup).
  unfold bench, bench_value.
  assert (Hrest : forall s0 : state, ticks s0 = ticks s ->
    fst (bench_rest clock engine g b w c fw fic oc s0) =
    match total_operations g b w c fw oc with
    | Ok ops =>
        let elapsed_ms :=
          Np.median
            (times_ms (durations clock (ticks s) (Z.to_nat (_ARGS_REPS g)))) in
        Ok (derive_rate ops elapsed_ms, elapsed_ms)
    | Raise e => Raise e
    end).
  { intros s0 Ht. unfold bench_rest, mbind, M_bind, bind, call_engine.
    rewrite !Hup. rewrite (Timing.measure_spec clock engine Hruns).
    cbn. rewrite Ht.
    unfold lift. destruct (total_operations g b w c fw oc); reflexivity. }
  fold (bench_rest clock engine g b w c fw fic oc).
  unfold mbind, M_bind, bind, call_engine.
  destruct (String.eqb (_ARGS_DATA_FORMAT g) "NWC"); cbn [orb].
  { rewrite Hup. apply Hrest. reflexivity. }
  destruct (String.eqb (_ARGS_DATA_FORMAT g) "NCW").
  { rewrite Hup. apply Hrest. reflexivity. }
  reflexivity.
Qed.

(** With an engine that does not fail, the run is decided by the
    environment, the clock and the probe. *)
Lemma run_expected :
  (fst (run environ clock engine probe),
   out (snd (run environ clock engine probe)))
  = expected_run environ clock probe.
Proof.
  pose proof run_cases as H. unfold expected_run.
  pose proof (resolve_cases environ init) as Hr.
  destruct (resolve environ init) as [[g|e] s1].
  - destruct Hr as (-> & -> & _ & _ & Ht). rewrite bench_result in H.
    cbn [print_stderr write snd ticks] in H. rewrite Ht in H.
    change (ticks init) with 0%nat in H.
    destruct (bench_value _ _ _ _ _ _ _) as [r|e];
      [destruct (probe_value probe) as [bi|e]|];
      destruct H as [-> ->]; reflexivity.
  - destruct Hr as (-> & _). now destruct H as [-> ->].
Qed.

End Process.

Lemma field_report_other key g rate elapsed bi bi' :
  key <> "tensorflow_buildinfo" ->
  field key (report g rate elapsed bi) = field key (report g rate elapsed bi').
Proof.
  intros Hk. unfold field, report. cbn [List.find fst].
  repeat (destruct (String.eqb _ key); [reflexivity|]).
  destruct (String.eqb_spec "tensorflow_buildinfo" key) as [E|_];
    [congruence|reflexivity].
Qed.

(** C8.  When the build-metadata probe fails, the numeric driver behaves
    on its exit status and its standard output as if the probe had returned
    null: the failure is logged on the diagnostic stream and nothing else
    changes.  So whenever the run with build information emits its report,
    the run without it ends with status 0 and emits the same report except
    for the field ["tensorflow_buildinfo"], which is present and null. *)
Theorem build_info_failure_is_reported_as_null
    (environ : gmap string string) (clock : nat -> Q)
    (engine : list event -> event -> option exn) (e : exn) :
  is_Exception e = true ->
  fst (run environ clock engine (Raise e))
  = fst (run environ clock engine (Ok JNull))
  /\ out (snd (run environ clock engine (Raise e)))
     = out (snd (run environ clock engine (Ok JNull)))
  /\ forall j rep_j,
       out (snd (run environ clock engine (Ok j))) = [JsonDump rep_j] ->
       fst (run environ clock engine (Raise e)) = 0
       /\ exists rep,
            out (snd (run environ clock engine (Raise e))) = [JsonDump rep]
            /\ field "tensorflow_buildinfo" rep = Some JNull
            /\ forall key,
                 key <> "tensorflow_buildinfo" ->
                 field key rep = field key rep_j.
Proof.
  intros He.
  pose proof (fun probe => run_cases environ clock engine probe) as H.
  revert H. destruct (resolve environ init) as [[g|x] s1]; intros H.
  - revert H.
    destruct (fst (bench clock engine g _ _ _ _ _ _ _)) as [r|x]; intros H.
    + pose proof (H (Raise e)) as Hf. pose proof (H (Ok JNull)) as Hn.
      unfold probe_value in Hf, Hn. rewrite He in Hf.
      destruct Hf as [Hf1 Hf2], Hn as [Hn1 Hn2].
      split; [congruence|]. split; [congruence|].
      intros j rep_j Hj. destruct (H (Ok j)) as [_ Ho]. cbn beta iota in Ho.
      rewrite Ho in Hj. injection Hj as <-.
      split; [exact Hf1|]. eexists. split; [exact Hf2|].
      split; [reflexivity|]. intros key Hk. now apply field_report_other.
    + pose proof (H (Raise e)) as Hf. pose proof (H (Ok JNull)) as Hn.
      destruct Hf as [Hf1 Hf2], Hn as [Hn1 Hn2].
      split; [congruence|]. split; [congruence|].
      intros j rep_j Hj. destruct (H (Ok j)) as [_ Ho]. congruence.
  - pose proof (H (Raise e)) as Hf. pose proof (H (Ok JNull)) as Hn.
    destruct Hf as [Hf1 Hf2], Hn as [Hn1 Hn2].
    split; [congruence|]. split; [congruence|].
    intros j rep_j Hj. destruct (H (Ok j)) as [_ Ho]. congruence.
Qed.

Lemma build_info_failure_is_reported_as_null_witness :
  is_Exception (FileNotFoundError "build_info.json") = true
  /\ fst (run ∅ clock_10ms engine_up
            (Raise (FileNotFoundError "build_info.json"))) = 0
  /\ exists rep,
       out (snd (run ∅ clock_10ms engine_up
                   (Raise (FileNotFoundError "build_info.json"))))
       = [JsonDump rep]
       /\ field "tensorflow_buildinfo" rep = Some JNull.
Proof.
  split; [reflexivity|].
  destruct (build_info_failure_is_reported_as_null ∅ clock_10ms engine_up
              (FileNotFoundError "build_info.json") eq_refl)
    as (_ & _ & H).
  edestruct (H (JDict [])) as (Hstatus & rep & Hout & Hnull & _).
  - vm_compute. reflexivity.
  - split; [exact Hstatus|]. exists rep. now split.
Defined.

(** C10.  The filter input channels reach neither the metrics nor the
    echo.  Take two runs whose globals differ only in
    [_ARGS_F_INPUT_CHANNELS] and which measure the same sample: the
    operation counts are the same, the rate and the elapsed time [bench]
    returns are the same, the ["@parameters"] entries are the same, and
    when both runs succeed [main] leaves the same text on standard
    output. *)
Theorem filter_input_channels_not_in_metrics_nor_echo
    (g : args) (x : Z) (clock1 clock2 : nat -> Q)
    (engine1 engine2 : list event -> event -> option exn)
    (probe : result json) (s1 s2 : state) :
  sys_stdout s1 = Fd1 -> sys_stdout s2 = Fd1 -> out s1 = out s2 ->
  durations clock1 (ticks s1) (Z.to_nat (_ARGS_REPS g))
  = durations clock2 (ticks s2) (Z.to_nat (_ARGS_REPS g)) ->
  total_operations g (_ARGS_BATCH g) (_ARGS_INPUT_WIDTH g)
    (_ARGS_T_INPUT_CHANNELS g) (_ARGS_FILTER_WIDTH g) (_ARGS_OUTPUT_CHANNELS g)
  = total_operations (set_f_input_channels g x) (_ARGS_BATCH g)
      (_ARGS_INPUT_WIDTH g) (_ARGS_T_INPUT_CHANNELS g) (_ARGS_FILTER_WIDTH g)
      (_ARGS_OUTPUT_CHANNELS g)
  /\ (forall r1 r2 s1' s2',
        bench clock1 engine1 g (_ARGS_BATCH g) (_ARGS_INPUT_WIDTH g)
          (_ARGS_T_INPUT_CHANNELS g) (_ARGS_FILTER_WIDTH g)
          (_ARGS_F_INPUT_CHANNELS g) (_ARGS_OUTPUT_CHANNELS g) s1
        = (Ok r1, s1') ->
        bench clock2 engine2 (set_f_input_channels g x) (_ARGS_BATCH g)
          (_ARGS_INPUT_WIDTH g) (_ARGS_T_INPUT_CHANNELS g)
          (_ARGS_FILTER_WIDTH g) x (_ARGS_OUTPUT_CHANNELS g) s2
        = (Ok r2, s2') ->
        r1 = r2)
  /\ parameters g = parameters (set_f_input_channels g x)
  /\ (fst (main clock1 engine1 probe g s1) = Ok tt ->
      fst (main clock2 engine2 probe (set_f_input_channels g x) s2) = Ok tt ->
      out (snd (main clock1 engine1 probe g s1))
      = out (snd (main clock2 engine2 probe (set_f_input_channels g x) s2))).
Proof.
  intros Hfd1 Hfd2 Hout Hsample.
  split; [reflexivity|]. split; [|split; [reflexivity|]].
  - intros r1 r2 s1' s2' H1 H2.
    apply bench_returns in H1, H2.
    cbn [set_f_input_channels _ARGS_REPS] in H2. rewrite <- Hsample in H2.
    change (bench_value (set_f_input_channels g x)) with (bench_value g) in H2.
    congruence.
  - intros Hm1 Hm2.
    pose proof (main_cases clock1 engine1 probe g s1 Hfd1) as H1.
    pose proof (main_cases clock2 engine2 probe (set_f_input_channels g x)
                  s2 Hfd2) as H2.
    cbn [set_f_input_channels _ARGS_REPS _ARGS_BATCH _ARGS_INPUT_WIDTH
         _ARGS_T_INPUT_CHANNELS _ARGS_FILTER_WIDTH _ARGS_OUTPUT_CHANNELS
         _ARGS_F_INPUT_CHANNELS] in H2.
    change (report (set_f_input_channels g x)) with (report g) in H2.
    destruct (bench clock1 engine1 g _ _ _ _ _ _ _) as [[r1|e1] t1] eqn:B1;
      cbn [fst] in H1; [|destruct H1 as [H1 _]; congruence].
    destruct (bench clock2 engine2 _ _ _ _ _ _ _ _) as [[r2|e2] t2] eqn:B2;
      cbn [fst] in H2; [|destruct H2 as [H2 _]; congruence].
    apply bench_returns in B1, B2.
    cbn [set_f_input_channels _ARGS_REPS print_stderr write snd ticks]
      in B1, B2.
    rewrite <- Hsample in B2.
    change (bench_value (set_f_input_channels g x)) with (bench_value g) in B2.
    assert (r1 = r2) as <- by congruence.
    destruct (probe_value probe) as [bi|e];
      [|destruct H1 as [H1 _]; congruence].
    destruct H1 as [_ ->], H2 as [_ ->]. now rewrite Hout.
Qed.

Lemma filter_input_channels_not_in_metrics_nor_echo_witness :
  parameters scenario_A = parameters (set_f_input_channels scenario_A 4)
  /\ out (snd (main clock_10ms engine_up (Ok JNull) scenario_A init))
     = out (snd (main clock_10ms engine_up (Ok JNull)
                  (set_f_input_channels scenario_A 4) init)).
Proof.
  destruct (filter_input_channels_not_in_metrics_nor_echo scenario_A 4
              clock_10ms clock_10ms engine_up engine_up (Ok JNull) init init)
    as (_ & _ & Hecho & Hout); try reflexivity.
  split; [exact Hecho|]. apply Hout; vm_compute; reflexivity.
Defined.

End Driver.

(** ** [int(str(z))] is [z] *)

Module Decimal_text.
Import Py Spec.

Lemma parse_digits_digit c k acc b l :
  digit_val c = Some k -> Ascii.eqb c "_" = false ->
  parse_digits acc b (c :: l) = parse_digits (10 * acc + k) true l.
Proof. intros Hk Hu. cbn [parse_digits]. now rewrite Hu, Hk. Qed.

Ltac digit_step d :=
  unfold chars; cbn [NilEmpty.string_of_uint list_ascii_of_string];
  fold (chars d);
  erewrite parse_digits_digit by (vm_compute; reflexivity).

Lemma parse_digits_acc d : forall p,
  parse_digits (Z.pos p) true (chars d) = Some (Z.pos (Pos.of_uint_acc d p)).
Proof.
  induction d as [|d IH|d IH|d IH|d IH|d IH|d IH|d IH|d IH|d IH|d IH];
    intros p; [reflexivity|..];
    digit_step d; cbn [Pos.of_uint_acc]; rewrite <- IH; f_equal; lia.
Qed.

Lemma parse_digits_uint d :
  parse_digits 0 true (chars d) = Some (Z.of_N (Pos.of_uint d)).
Proof.
  induction d as [|d IH|d IH|d IH|d IH|d IH|d IH|d IH|d IH|d IH|d IH];
    [reflexivity|digit_step d; exact IH|..];
    digit_step d; cbn [Pos.of_uint]; apply parse_digits_acc.
Qed.

Lemma chars_no_space d : Forall (fun c => is_space c = false) (chars d).
Proof.
  induction d; unfold chars;
    cbn [NilEmpty.string_of_uint list_ascii_of_string];
    constructor; try reflexivity; assumption.
Qed.

Lemma lstrip_id l : Forall (fun c => is_space c = false) l -> lstrip l = l.
Proof. destruct 1 as [|c l Hc _]; [reflexivity|]. cbn. now rewrite Hc. Qed.

Lemma strip_id l : Forall (fun c => is_space c = false) l -> strip l = l.
Proof.
  intros H. unfold strip. rewrite (lstrip_id l H).
  rewrite lstrip_id; [apply rev_involutive|].
  apply Forall_rev. exact H.
Qed.

Lemma parse_int_uint d :
  d <> Decimal.Nil -> parse_int (chars d) = Some (Z.of_N (Pos.of_uint d)).
Proof.
  intros Hd. unfold parse_int. rewrite strip_id by apply chars_no_space.
  rewrite <- parse_digits_uint.
  destruct d; [contradiction|reflexivity..].
Qed.

Lemma int_str_of_int z : int (VStr (str_of_int z)) = Ok z.
Proof.
  unfold int, str_of_int.
  destruct z as [|p|p]; [reflexivity| |].
  - cbn [Z.to_int NilZero.string_of_int]. unfold NilZero.string_of_uint.
    pose proof (Unsigned.to_uint_nonnil p) as Hn.
    pose proof (parse_int_uint _ Hn) as H. unfold chars in H.
    rewrite Unsigned.of_to in H.
    destruct (Pos.to_uint p); [contradiction|now rewrite H..].
  - cbn [Z.to_int NilZero.string_of_int]. unfold NilZero.string_of_uint.
    pose proof (Unsigned.to_uint_nonnil p) as Hn.
    pose proof (parse_int_uint _ Hn) as H.
    rewrite Unsigned.of_to in H.
    assert (Hneg : parse_int ("-"%char :: chars (Pos.to_uint p))
                   = Some (Z.neg p)).
    { unfold parse_int.
      rewrite strip_id
        by (constructor; [reflexivity|apply chars_no_space]).
      cbn [Ascii.eqb Bool.eqb]. cbv beta iota.
      unfold parse_int in H. rewrite strip_id in H by apply chars_no_space.
      assert (Hd : parse_digits 0 false (chars (Pos.to_uint p))
                   = Some (Z.pos p)).
      { etransitivity; [|exact H].
        destruct (Pos.to_uint p); [contradiction|reflexivity..]. }
      now rewrite Hd. }
    unfold chars in Hneg.
    destruct (Pos.to_uint p);
      [contradiction|cbn [list_ascii_of_string]; now rewrite Hneg..].
Qed.

End Decimal_text.

(** ** The suite bridge *)

Module Bridge.
Import Py Proc Spec PiPyPerformance Resolver.

Lemma write_all_spec f cs : forall s,
  write_all f cs s =
  (Ok tt,
   match f with
   | Fd1 => mkState (sys_stdout s) (out s ++ cs) (err s) (ticks s) (trace s)
   | Fd2 => mkState (sys_stdout s) (out s) (err s ++ cs) (ticks s) (trace s)
   end).
Proof.
  unfold write_all. intros s. f_equal. revert s.
  induction cs as [|c cs IH]; intros s; cbn [fold_left].
  - rewrite !app_nil_r. now destruct f, s.
  - rewrite IH. destruct f; cbn; now rewrite <- app_assoc.
Qed.

Lemma bench_spec (p : suite) :
  bench p init
  = (suite_end p, mkState Fd1 (suite_stdout p) (suite_stderr p) 0 []).
Proof.
  unfold bench, mbind, M_bind, bind, get_sys_stdout, lift.
  cbn [init sys_stdout]. rewrite !write_all_spec. reflexivity.
Qed.

(** The successful path: what the suite printed, then the report. *)
Lemma bridge_success (p : suite) (j : json) :
  suite_end p = Ok tt -> output_json p = Text (Some j) ->
  fst (run p) = 0
  /\ out (snd (run p)) = suite_stdout p ++ [JsonDump (report j)]
  /\ err (snd (run p)) = suite_stderr p.
Proof.
  intros He Hj. unfold run, exit_status, script, try_except_SystemExit.
  unfold mbind, M_bind, bind. rewrite bench_spec, He.
  unfold load_output. rewrite Hj. cbn. repeat split.
Qed.

(** Without a result file the run always ends with status 1 and without a
    report. *)
Lemma no_artifact_is_fatal (p : suite) :
  output_json p = NoFile ->
  fst (run p) = 1 /\ out (snd (run p)) = suite_stdout p.
Proof.
  intros Hj. unfold run. rewrite exit_status_fst, exit_status_out.
  unfold script, try_except_SystemExit.
  unfold mbind, M_bind, bind. rewrite bench_spec.
  unfold load_output. rewrite Hj.
  destruct (suite_end p) as [[]|e]; [now cbn|].
  destruct e; try (now cbn).
  unfold lift. destruct (int (VStr (str_of_exit args))) as [code|e] eqn:Hc.
  - destruct (code =? 0); now cbn.
  - apply int_str_raise in Hc as [msg ->]. now cbn.
Qed.

(** A [SystemExit] of the suite is survived only when its text reads as
    the integer 0. *)
Lemma suite_exit_is_survived_only_when_zero (p : suite) args :
  suite_end p = Raise (SystemExit args) ->
  int (VStr (str_of_exit args)) <> Ok 0 ->
  fst (run p) = 1 /\ out (snd (run p)) = suite_stdout p.
Proof.
  intros He Hz. unfold run. rewrite exit_status_fst, exit_status_out.
  unfold script, try_except_SystemExit.
  unfold mbind, M_bind, bind. rewrite bench_spec, He.
  unfold lift. destruct (int (VStr (str_of_exit args))) as [code|e] eqn:Hc.
  - destruct (Z.eqb_spec code 0) as [->|_]; [contradiction|]. now cbn.
  - apply int_str_raise in Hc as [msg ->]. now cbn.
Qed.

(** C6.  A suite that ends with a non-zero exit status is meant to be
    logged and survived.  It is not: the handler formats its message with
    [int(exc)], which raises [TypeError], so the harness ends with status 1
    and a traceback, writes no report, and never reads the result file. *)
Theorem nonzero_suite_exit_aborts_harness (p : suite) (z : Z) :
  suite_end p = Raise (SystemExit (Some (AInt z))) ->
  z <> 0 ->
  fst (run p) = 1
  /\ out (snd (run p)) = suite_stdout p
  /\ exists msg,
       err (snd (run p)) = suite_stderr p ++ [Traceback (TypeError msg)].
Proof.
  intros He Hz. unfold run, exit_status, script, try_except_SystemExit.
  unfold mbind, M_bind, bind. rewrite bench_spec, He.
  cbn [str_of_exit lift]. rewrite Decimal_text.int_str_of_int.
  destruct (Z.eqb_spec z 0) as [E|_]; [contradiction|].
  cbn. repeat split. eauto.
Qed.

Lemma nonzero_suite_exit_aborts_harness_witness :
  fst (run exiting_suite) = 1
  /\ out (snd (run exiting_suite)) = suite_stdout exiting_suite
  /\ exists msg,
       err (snd (run exiting_suite))
       = suite_stderr exiting_suite ++ [Traceback (TypeError msg)].
Proof.
  apply (nonzero_suite_exit_aborts_harness exiting_suite 2).
  - reflexivity.
  - discriminate.
Defined.

(** C7.  The bridge binds [sys.stdout] to the diagnostic stream only after
    the suite has run, so what the suite printed is on standard output in
    front of the report: a successful run whose output is more than the
    report. *)
Theorem suite_progress_precedes_report_on_stdout :
  fst (run chatty_suite) = 0
  /\ out (snd (run chatty_suite))
     = [Line "[1/1] chameleon..."; JsonDump (report (JDict []))]
  /\ out (snd (run chatty_suite)) <> [JsonDump (report (JDict []))].
Proof. vm_compute. repeat split. discriminate. Qed.

End Bridge.

(** ** More on parameter resolution *)

Module Configuration.
Import Py Proc Spec Conv1d Resolver.

Section Resolve.
Variable environ : gmap string string.

Lemma resolve_returns_state s g s' :
  resolve environ s = (Ok g, s') ->
  s' = mkState (sys_stdout s) (out s) (err s ++ echoes g) (ticks s) (trace s).
Proof.
  unfold resolve, mbind, M_bind, bind.
  repeat (rewrite ?str_param_spec; cbv beta iota; rewrite int_param_spec;
    match goal with
    | |- context [int (getenv environ ?key (VInt ?d))] =>
        destruct (int (getenv environ key (VInt d))) as [?z|?e];
        [|discriminate]
    end; cbv beta iota).
  rewrite ?str_param_spec. cbv beta iota.
  intros [= <- <-].
  unfold print_stderr, write. cbn [snd sys_stdout out err ticks trace].
  unfold echoes. cbn [_ARGS_DTYPE _ARGS_DEVICE _ARGS_REPS _ARGS_DATA_FORMAT
    _ARGS_BATCH _ARGS_INPUT_WIDTH _ARGS_T_INPUT_CHANNELS _ARGS_FILTER_WIDTH
    _ARGS_F_INPUT_CHANNELS _ARGS_OUTPUT_CHANNELS _ARGS_PADDING _ARGS_STRIDE].
  repeat rewrite <- app_assoc. reflexivity.
Qed.


(** X1.  When resolution succeeds it has printed one line per parameter on
    the diagnostic stream, the twelve of them in the order of the source and
    each with the value that was resolved, and it has touched nothing else:
    not standard output, not the clock, not the engine. *)
Theorem resolve_echoes_every_parameter s g s' :
  resolve environ s = (Ok g, s') ->
  err s' = err s ++ echoes g
  /\ out s' = out s /\ sys_stdout s' = sys_stdout s
  /\ ticks s' = ticks s /\ trace s' = trace s.
Proof. intros H. apply resolve_returns_state in H. now subst s'. Qed.


End Resolve.

Lemma resolve_echoes_every_parameter_witness :
  err (snd (resolve environ_5_channels init))
  = err init ++ echoes args_5_channels
  /\ out (snd (resolve environ_5_channels init)) = out init
  /\ sys_stdout (snd (resolve environ_5_channels init)) = sys_stdout init
  /\ ticks (snd (resolve environ_5_channels init)) = ticks init
  /\ trace (snd (resolve environ_5_channels init)) = trace init.
Proof.
  apply (resolve_echoes_every_parameter environ_5_channels init
           args_5_channels).
  vm_compute. reflexivity.
Defined.


Lemma parse_str_of_int z :
  parse_int (list_ascii_of_string (str_of_int z)) = Some z.
Proof.
  pose proof (Decimal_text.int_str_of_int z) as H. unfold int in H.
  destruct (parse_int _); [now injection H as ->|discriminate].
Qed.

Lemma fallback_environ_of g : resolve_with_fallback (environ_of g) = g.
Proof.
  unfold resolve_with_fallback, int_or_default, getenv_str, environ_of.
  cbn [list_to_map foldr]. simplify_map_eq.
  rewrite !parse_str_of_int. now destruct g.
Qed.

Lemma well_formed_environ_of g : well_formed (environ_of g) = true.
Proof.
  unfold well_formed, int_keys, parses, environ_of.
  cbn [list_to_map foldr forallb]. simplify_map_eq.
  rewrite !parse_str_of_int. reflexivity.
Qed.

(** X3.  Resolution reads back what was written: from the environment
    that holds every global of [g], the integers as [str] prints them,
    resolution gives [g] again, whatever the integers and the texts are. *)
Theorem resolve_reads_back_what_was_written (g : args) (s : state) :
  fst (resolve (environ_of g) s) = Ok g.
Proof.
  pose proof (resolve_cases (environ_of g) s) as H.
  destruct (resolve (environ_of g) s) as [[g'|e] s'].
  - destruct H as (_ & -> & _). cbn. f_equal. apply fallback_environ_of.
  - destruct H as (Hw & _). rewrite well_formed_environ_of in Hw.
    discriminate.
Qed.



End Configuration.

(** ** More on the workload *)

Module Workload.
Import Py Proc Spec Conv1d Resolver Driver.

Section Engine.
Variable clock : nat -> Q.
Variable engine : list event -> event -> option exn.

Lemma bench_unknown_layout g b w c fw fic oc s :
  known_layout g = false ->
  bench clock engine g b w c fw fic oc s
  = (Raise (ValueError ("Unknown data_format: " +:+ _ARGS_DATA_FORMAT g)), s).
Proof.
  unfold known_layout, bench, mbind, M_bind, bind.
  destruct (String.eqb (_ARGS_DATA_FORMAT g) "NWC"); [discriminate|].
  destruct (String.eqb (_ARGS_DATA_FORMAT g) "NCW"); [discriminate|].
  reflexivity.
Qed.

Lemma timed_runs_returns_state n : forall times s ts s',
  timed_runs clock engine n times s = (Ok ts, s') ->
  ts = times ++ durations clock (ticks s) n
  /\ s' = mkState (sys_stdout s) (out s) (err s) (ticks s + 2 * n)
            (trace s ++ concat (replicate n repetition)).
Proof.
  induction n as [|n IH]; intros times s ts s'.
  - cbn. intros [= <- <-]. rewrite !app_nil_r, Nat.add_0_r. now destruct s.
  - cbn [timed_runs]. unfold mbind, M_bind, bind, time, call_engine.
    cbn [ticks trace sys_stdout out err].
    destruct (engine _ RunOp); [discriminate|].
    intros H. apply IH in H as [-> ->]. cbn. split.
    + now rewrite <- app_assoc.
    + f_equal; [lia|]. now rewrite <- !app_assoc.
Qed.

Lemma timed_runs_raise n : forall times s e s',
  timed_runs clock engine n times s = (Raise e, s') ->
  (exists tr, engine tr RunOp = Some e)
  /\ out s' = out s /\ err s' = err s.
Proof.
  induction n as [|n IH]; intros times s e s'.
  - discriminate.
  - cbn [timed_runs]. unfold mbind, M_bind, bind, time, call_engine.
    cbn [ticks trace sys_stdout out err].
    destruct (engine _ RunOp) as [x|] eqn:E.
    + intros [= <- <-]. split; [eauto|now split].
    + intros H. apply IH in H as (H1 & H2 & H3). now repeat split.
Qed.

(** How the warm-up and the loop end, for any engine. *)
Lemma measure_cases (reps : Z) (s : state) :
  match measure clock engine reps s with
  | (Ok ts, s') =>
      ts = durations clock (ticks s) (Z.to_nat reps)
      /\ length ts = Z.to_nat reps
      /\ s' = mkState (sys_stdout s) (out s) (err s)
                (ticks s + 2 * Z.to_nat reps)
                (trace s
                 ++ RunOp :: concat (replicate (Z.to_nat reps) repetition))
  | (Raise e, s') =>
      (exists tr, engine tr RunOp = Some e)
      /\ out s' = out s /\ err s' = err s
  end.
Proof.
  destruct (measure clock engine reps s) as [[ts|e] s'] eqn:H; revert H;
    unfold measure, mbind, M_bind, bind, call_engine;
    destruct (engine (trace s) RunOp) as [x|] eqn:E.
  - discriminate.
  - intros H. apply timed_runs_returns_state in H as [-> ->].
    cbn. rewrite Timing.length_durations. repeat split.
    now rewrite <- app_assoc.
  - intros [= <- <-]. split; [eauto|now split].
  - intros H. apply timed_runs_raise in H as (H1 & H2 & H3). now repeat split.
Qed.

(** How [bench_rest] ends. *)
Lemma bench_rest_cases g b w c fw fic oc s :
  let n := Z.to_nat (_ARGS_REPS g) in
  let tr :=
    trace s
    ++ [Variable_ones [fw; fic; oc] (_ARGS_DTYPE g);
        Conv1d (_ARGS_STRIDE g) (_ARGS_PADDING g) (_ARGS_DATA_FORMAT g);
        GlobalInit]
    ++ RunOp :: concat (replicate n repetition) in
  match bench_rest clock engine g b w c fw fic oc s with
  | (Ok r, s') =>
      s' = mkState (sys_stdout s) (out s) (err s ++ [ConvTook r.2 r.1])
             (ticks s + 2 * n) tr
  | (Raise e, s') =>
      ((exists t ev, engine t ev = Some e)
       \/ (_ARGS_STRIDE g = 0 /\ e = ZeroDivisionError
           /\ trace s' = tr /\ ticks s' = (ticks s + 2 * n)%nat))
      /\ out s' = out s /\ err s' = err s
  end.
Proof.
  intros n tr. subst tr. unfold bench_rest.
  unfold mbind, M_bind, bind, call_engine.
  cbn [trace ticks sys_stdout out err].
  do 3 (match goal with
        | |- context [match engine ?t ?ev with _ => _ end] =>
            destruct (engine t ev) as [x|] eqn:?E
        end; cbv beta iota; [split; [left; eauto|now split]|]).
  match goal with
  | |- context [measure clock engine ?r ?s0] =>
      pose proof (measure_cases r s0) as Hm;
      destruct (measure clock engine r s0) as [[ts|x] s1]
  end.
  - destruct Hm as (-> & _ & ->). cbn [ticks trace sys_stdout out err].
    unfold lift, total_operations, int_truediv.
    destruct (Z.eqb_spec (_ARGS_STRIDE g) 0) as [Hz|Hz].
    + split; [|now split]. right. cbn [trace ticks].
      repeat split; try assumption. now rewrite <- !app_assoc.
    + cbn. f_equal. now rewrite <- !app_assoc.
  - destruct Hm as ([t Ht] & Ho & He). split; [left; eauto|].
    now split.
Qed.

(** How [bench] ends. *)
Lemma bench_cases g b w c fw fic oc s :
  let n := Z.to_nat (_ARGS_REPS g) in
  let tr :=
    trace s ++ construction g b w c fw fic oc
    ++ RunOp :: concat (replicate n repetition) in
  match bench clock engine g b w c fw fic oc s with
  | (Ok r, s') =>
      s' = mkState (sys_stdout s) (out s) (err s ++ [ConvTook r.2 r.1])
             (ticks s + 2 * n) tr
  | (Raise e, s') =>
      ((known_layout g = false
        /\ e = ValueError ("Unknown data_format: " +:+ _ARGS_DATA_FORMAT g)
        /\ s' = s)
       \/ (exists t ev, engine t ev = Some e)
       \/ (_ARGS_STRIDE g = 0 /\ e = ZeroDivisionError
           /\ trace s' = tr /\ ticks s' = (ticks s + 2 * n)%nat))
      /\ out s' = out s /\ err s' = err s
  end.
Proof.
  intros n tr. subst tr n.
  unfold bench. fold (bench_rest clock engine g b w c fw fic oc).
  unfold mbind, M_bind, bind, construction, input_shape.
  assert (Hgo : forall shape,
    match
      (let (r, s') :=
         call_engine engine (Variable_ones shape (_ARGS_DTYPE g)) s in
       match r with
       | Ok _ => bench_rest clock engine g b w c fw fic oc s'
       | Raise e => (Raise e, s')
       end)
    with
    | (Ok r, s') =>
        s' = mkState (sys_stdout s) (out s) (err s ++ [ConvTook r.2 r.1])
               (ticks s + 2 * Z.to_nat (_ARGS_REPS g))
               (trace s
                ++ [Variable_ones shape (_ARGS_DTYPE g);
                    Variable_ones [fw; fic; oc] (_ARGS_DTYPE g);
                    Conv1d (_ARGS_STRIDE g) (_ARGS_PADDING g)
                      (_ARGS_DATA_FORMAT g);
                    GlobalInit]
                ++ RunOp
                   :: concat (replicate (Z.to_nat (_ARGS_REPS g)) repetition))
    | (Raise e, s') =>
        ((known_layout g = false
          /\ e = ValueError ("Unknown data_format: " +:+ _ARGS_DATA_FORMAT g)
          /\ s' = s)
         \/ (exists t ev, engine t ev = Some e)
         \/ (_ARGS_STRIDE g = 0 /\ e = ZeroDivisionError
             /\ trace s'
                = trace s
                  ++ [Variable_ones shape (_ARGS_DTYPE g);
                      Variable_ones [fw; fic; oc] (_ARGS_DTYPE g);
                      Conv1d (_ARGS_STRIDE g) (_ARGS_PADDING g)
                        (_ARGS_DATA_FORMAT g);
                      GlobalInit]
                  ++ RunOp
                     :: concat
                          (replicate (Z.to_nat (_ARGS_REPS g)) repetition)
             /\ ticks s' = (ticks s + 2 * Z.to_nat (_ARGS_REPS g))%nat))
        /\ out s' = out s /\ err s' = err s
    end).
  { intros shape. unfold call_engine.
    destruct (engine (trace s) _) as [x|] eqn:E.
    - split; [right; left; eauto|now split].
    - match goal with
      | |- context [bench_rest clock engine g b w c fw fic oc ?s0] =>
          pose proof (bench_rest_cases g b w c fw fic oc s0) as Hr;
          destruct (bench_rest clock engine g b w c fw fic oc s0)
            as [[r|x] s1]
      end; cbn [trace ticks sys_stdout out err] in Hr.
      + rewrite Hr. f_equal. now rewrite <- !app_assoc.
      + destruct Hr as ([Hr|(Hz & -> & Ht & Hk)] & Ho & He);
          (split; [|now split]).
        * right. now left.
        * right. right. repeat split; try assumption.
          rewrite Ht. now rewrite <- !app_assoc. }
  destruct (String.eqb (_ARGS_DATA_FORMAT g) "NWC") eqn:E1;
    [exact (Hgo [b; w; c])|].
  destruct (String.eqb (_ARGS_DATA_FORMAT g) "NCW") eqn:E2;
    [exact (Hgo [b; c; w])|].
  cbv beta iota. split; [left|now split].
  unfold known_layout. rewrite E1, E2. now repeat split.
Qed.

(** X5.  The measurement is all or nothing, for any engine and any clock.
    When it returns, the sample has exactly [max(reps, 0)] entries, one per
    timed run and each the difference of the two clock readings around it,
    and the engine has run the workload once unmeasured and then once per
    entry.  When it raises, the exception is one the engine raised on a run
    of the workload, and nothing was printed. *)
Theorem measure_all_or_nothing (reps : Z) (s : state) :
  match measure clock engine reps s with
  | (Ok ts, s') =>
      ts = durations clock (ticks s) (Z.to_nat reps)
      /\ length ts = Z.to_nat reps
      /\ s' = mkState (sys_stdout s) (out s) (err s)
                (ticks s + 2 * Z.to_nat reps)
                (trace s
                 ++ RunOp :: concat (replicate (Z.to_nat reps) repetition))
  | (Raise e, s') =>
      (exists tr, engine tr RunOp = Some e)
      /\ out s' = out s /\ err s' = err s
  end.
Proof. apply measure_cases. Qed.

(** X6.  A call of [bench] that returns has built the graph once (input
    tensor in the shape of the layout, filter, convolution, initialiser),
    run the warm-up, then the timed repetitions, and read the clock twice
    per repetition; standard output is untouched.  When the two numbers it
    returns are finite, at least one repetition was timed and the one line
    it printed carries exactly these two numbers. *)
Theorem bench_builds_once_then_measures g b w c fw fic oc s r s' :
  bench clock engine g b w c fw fic oc s = (Ok r, s') ->
  let n := Z.to_nat (_ARGS_REPS g) in
  trace s'
  = trace s ++ construction g b w c fw fic oc
    ++ RunOp :: concat (replicate n repetition)
  /\ ticks s' = (ticks s + 2 * n)%nat
  /\ out s' = out s /\ sys_stdout s' = sys_stdout s
  /\ (forall rate elapsed,
        r = (Fin rate, Fin elapsed) ->
        (0 < n)%nat
        /\ err s' = err s ++ [ConvTook (Fin elapsed) (Fin rate)]).
Proof.
  intros H n. pose proof (bench_cases g b w c fw fic oc s) as Hc.
  rewrite H in Hc. cbv zeta in Hc. subst s'.
  cbn [trace ticks out sys_stdout err]. repeat split; try reflexivity.
  - apply bench_returns in H. unfold bench_value in H.
    destruct (_ || _)%bool; [|discriminate].
    destruct (total_operations g b w c fw oc) as [ops|x]; [|discriminate].
    subst r. cbv zeta in H. injection H as _ He.
    fold n in He. destruct n; [discriminate|lia].
  - now subst r.
Qed.

(** X7.  [bench] raises for three reasons only: a layout that is neither
    [NWC] nor [NCW], which raises [ValueError] before anything else
    happens; an exception of the engine, and then nothing was printed; a
    stride of 0, which raises [ZeroDivisionError] only after the graph was
    built and the whole measurement made.  In no case is anything written
    on standard output. *)
Theorem bench_fails_for_three_reasons g b w c fw fic oc s e s' :
  bench clock engine g b w c fw fic oc s = (Raise e, s') ->
  out s' = out s
  /\ ((known_layout g = false
       /\ e = ValueError ("Unknown data_format: " +:+ _ARGS_DATA_FORMAT g)
       /\ s' = s)
      \/ ((exists t ev, engine t ev = Some e) /\ err s' = err s)
      \/ (_ARGS_STRIDE g = 0 /\ e = ZeroDivisionError
          /\ trace s'
             = trace s ++ construction g b w c fw fic oc
               ++ RunOp
                  :: concat
                       (replicate (Z.to_nat (_ARGS_REPS g)) repetition))).
Proof.
  intros H. pose proof (bench_cases g b w c fw fic oc s) as Hc.
  rewrite H in Hc. destruct Hc as ([H1|[H2|(H3 & H4 & H5 & _)]] & Ho & He);
    (split; [exact Ho|]); [now left|right; left; now split|].
  right. right. now repeat split.
Qed.


(** X9.  With no repetition asked for (a count of zero or below) the
    workload still runs once, for the warm-up, the sample is empty, its
    median is not a number, and the driver reports [NaN] for both the rate
    and the elapsed time, ending normally. *)
Theorem nonpositive_reps_give_nan
    (probe : result json) (g : args) (s : state) (bi : json) :
  never_fails engine ->
  known_layout g = true ->
  _ARGS_STRIDE g <> 0 ->
  _ARGS_REPS g <= 0 ->
  sys_stdout s = Fd1 ->
  probe_value probe = Ok bi ->
  fst (bench clock engine g (_ARGS_BATCH g) (_ARGS_INPUT_WIDTH g)
         (_ARGS_T_INPUT_CHANNELS g) (_ARGS_FILTER_WIDTH g)
         (_ARGS_F_INPUT_CHANNELS g) (_ARGS_OUTPUT_CHANNELS g) s)
  = Ok (NaN, NaN)
  /\ runs (trace (snd (bench clock engine g (_ARGS_BATCH g)
                         (_ARGS_INPUT_WIDTH g) (_ARGS_T_INPUT_CHANNELS g)
                         (_ARGS_FILTER_WIDTH g) (_ARGS_F_INPUT_CHANNELS g)
                         (_ARGS_OUTPUT_CHANNELS g) s)))
     = S (runs (trace s))
  /\ fst (main clock engine probe g s) = Ok tt
  /\ out (snd (main clock engine probe g s))
     = out s ++ [JsonDump (report g NaN NaN bi)].
Proof.
  intros Hup Hl Hs Hr Hfd Hp.
  assert (Hn : Z.to_nat (_ARGS_REPS g) = 0%nat) by lia.
  assert (Hv : forall t,
    bench_value g (_ARGS_BATCH g) (_ARGS_INPUT_WIDTH g)
      (_ARGS_T_INPUT_CHANNELS g) (_ARGS_FILTER_WIDTH g)
      (_ARGS_OUTPUT_CHANNELS g) (durations clock t (Z.to_nat (_ARGS_REPS g)))
    = Ok (NaN, NaN)).
  { intros t. unfold bench_value. unfold known_layout in Hl. rewrite Hl, Hn.
    unfold total_operations, int_truediv.
    destruct (Z.eqb_spec (_ARGS_STRIDE g) 0) as [E|_]; [contradiction|].
    reflexivity. }
  split; [|split].
  - rewrite (bench_result clock engine Hup). apply Hv.
  - pose proof (bench_cases g (_ARGS_BATCH g)
      (_ARGS_INPUT_WIDTH g) (_ARGS_T_INPUT_CHANNELS g) (_ARGS_FILTER_WIDTH g)
      (_ARGS_F_INPUT_CHANNELS g) (_ARGS_OUTPUT_CHANNELS g) s) as Hc.
    pose proof (bench_result clock engine Hup g (_ARGS_BATCH g)
      (_ARGS_INPUT_WIDTH g) (_ARGS_T_INPUT_CHANNELS g) (_ARGS_FILTER_WIDTH g)
      (_ARGS_F_INPUT_CHANNELS g) (_ARGS_OUTPUT_CHANNELS g) s) as Hb.
    rewrite Hv in Hb.
    destruct (bench clock engine g _ _ _ _ _ _ s) as [[r|x] s1];
      [|discriminate].
    cbv zeta in Hc. rewrite Hc, Hn. cbn [snd trace replicate concat].
    rewrite !Timing.runs_app. cbn. lia.
  - pose proof (main_cases clock engine probe g s Hfd) as Hm.
    rewrite (bench_result clock engine Hup), Hv, Hp in Hm. exact Hm.
Qed.

End Engine.

Lemma bench_builds_once_then_measures_witness :
  let s' := snd (bench clock_10ms engine_up args_3_reps 2 7 4 3 4 5 init) in
  let n := Z.to_nat (_ARGS_REPS args_3_reps) in
  trace s'
  = trace init ++ construction args_3_reps 2 7 4 3 4 5
    ++ RunOp :: concat (replicate n repetition)
  /\ ticks s' = (ticks init + 2 * n)%nat
  /\ out s' = out init /\ sys_stdout s' = sys_stdout init
  /\ (forall rate elapsed,
        result_3_reps = (Fin rate, Fin elapsed) ->
        (0 < n)%nat
        /\ err s' = err init ++ [ConvTook (Fin elapsed) (Fin rate)]).
Proof.
  apply (bench_builds_once_then_measures clock_10ms engine_up args_3_reps
           2 7 4 3 4 5 init result_3_reps).
  vm_compute. reflexivity.
Defined.

Lemma bench_fails_for_three_reasons_witness :
  let e := ValueError "input and filter must have the same depth" in
  let s' := snd (bench clock_10ms engine_rejects_conv scenario_A
                   1 7 1 3 2 1 init) in
  out s' = out init
  /\ ((known_layout scenario_A = false
       /\ e = ValueError
                ("Unknown data_format: " +:+ _ARGS_DATA_FORMAT scenario_A)
       /\ s' = init)
      \/ ((exists t ev, engine_rejects_conv t ev = Some e)
          /\ err s' = err init)
      \/ (_ARGS_STRIDE scenario_A = 0 /\ e = ZeroDivisionError
          /\ trace s'
             = trace init ++ construction scenario_A 1 7 1 3 2 1
               ++ RunOp
                  :: concat
                       (replicate (Z.to_nat (_ARGS_REPS scenario_A))
                          repetition))).
Proof.
  apply (bench_fails_for_three_reasons clock_10ms engine_rejects_conv
           scenario_A 1 7 1 3 2 1 init).
  vm_compute. reflexivity.
Defined.


Lemma nonpositive_reps_give_nan_witness :
  fst (bench clock_10ms engine_up args_no_reps 1 7 1 3 1 1 init)
  = Ok (NaN, NaN)
  /\ runs (trace (snd (bench clock_10ms engine_up args_no_reps
                         1 7 1 3 1 1 init)))
     = S (runs (trace init))
  /\ fst (main clock_10ms engine_up (Ok JNull) args_no_reps init) = Ok tt
  /\ out (snd (main clock_10ms engine_up (Ok JNull) args_no_reps init))
     = out init ++ [JsonDump (report args_no_reps NaN NaN JNull)].
Proof.
  apply (nonpositive_reps_give_nan clock_10ms engine_up (Ok JNull)
           args_no_reps init JNull).
  - intros tr e. reflexivity.
  - reflexivity.
  - cbn. lia.
  - cbn. lia.
  - reflexivity.
  - reflexivity.
Defined.

End Workload.

(** ** More on the median *)

Module Sample.
Import Py Np Spec Conv1d Median.

(** In a sorted list, nothing from position [length l1] on is below the
    entry there. *)
Lemma count_le_below l1 b l2 a :
  StronglySorted Qle (l1 ++ b :: l2) -> (a < b)%Q ->
  (count_le a (l1 ++ b :: l2) <= length l1)%nat.
Proof.
  intros Hs Hab. destruct (sorted_split _ _ _ Hs) as [_ H2].
  rewrite count_le_app.
  assert (H0 : count_le a (b :: l2) = 0%nat).
  { unfold count_le. apply length_zero_iff_nil.
    assert (Hall : Forall (fun y => (a < y)%Q) (b :: l2)).
    { constructor; [exact Hab|].
      eapply List.Forall_impl; [|exact H2]. intros z Hz. cbn in Hz.
      eapply Qlt_le_trans; eauto. }
    clear -Hall. induction Hall as [|y l Hy _ IH]; [reflexivity|].
    cbn. destruct (Qle_bool y a) eqn:E; [|exact IH].
    apply Qle_bool_iff in E. exfalso. eapply Qlt_not_le; eauto. }
  rewrite H0. unfold count_le.
  pose proof (List.filter_length_le (fun x => Qle_bool x a) l1). lia.
Qed.

(** Two sorted arrangements of one sample agree entry by entry. *)
Lemma sorted_perm_lookup_le s1 s2 k x y :
  StronglySorted Qle s1 -> StronglySorted Qle s2 -> Permutation s1 s2 ->
  s1 !! k = Some x -> s2 !! k = Some y -> (x <= y)%Q.
Proof.
  intros H1 H2 Hp Hx Hy.
  destruct (Qlt_le_dec y x) as [Hlt|Hle]; [exfalso|exact Hle].
  apply list_elem_of_split_length in Hx as (a1 & a2 & -> & Hk1).
  apply list_elem_of_split_length in Hy as (b1 & b2 & -> & Hk2).
  pose proof (count_le_below a1 x a2 y H1 Hlt) as Hc1.
  destruct (sorted_split _ _ _ H2) as [Hb1 _].
  assert (Hc2 : (S (length b1) <= count_le y (b1 ++ y :: b2))%nat).
  { rewrite count_le_app. rewrite (count_le_all y b1 Hb1).
    unfold count_le at 1. cbn [List.filter].
    assert (E : Qle_bool y y = true) by (apply Qle_bool_iff, Qle_refl).
    rewrite E. cbn [length]. lia. }
  rewrite (count_le_perm y _ _ Hp) in Hc1. lia.
Qed.

Lemma sorted_perm_lookup_eq s1 s2 k x y :
  StronglySorted Qle s1 -> StronglySorted Qle s2 -> Permutation s1 s2 ->
  s1 !! k = Some x -> s2 !! k = Some y -> (x == y)%Q.
Proof.
  intros H1 H2 Hp Hx Hy. apply Qle_antisym.
  - exact (sorted_perm_lookup_le s1 s2 k x y H1 H2 Hp Hx Hy).
  - symmetry in Hp.
    exact (sorted_perm_lookup_le s2 s1 k y x H2 H1 Hp Hy Hx).
Qed.

(** X10.  The median of a sample that is not empty is a finite number
    between the bounds of the sample: never [NaN], never infinite, never
    below the fastest run nor above the slowest. *)
Theorem median_within_the_sample (sample : list Q) (lo hi : Q) :
  sample <> [] ->
  Forall (fun x => (lo <= x)%Q /\ (x <= hi)%Q) sample ->
  exists m, median sample = Fin m /\ (lo <= m)%Q /\ (m <= hi)%Q.
Proof.
  intros Hne Hb.
  assert (Hs : Forall (fun x => (lo <= x)%Q /\ (x <= hi)%Q) (sort sample)).
  { eapply Permutation_Forall; [symmetry; apply sort_perm|exact Hb]. }
  destruct (Nat.eq_dec (length sample mod 2)%nat 1%nat) as [Hodd|Heven].
  - destruct (median_odd sample Hodd) as (l1 & x & l2 & E & _ & _ & Hm).
    rewrite E in Hs. apply Forall_app in Hs as [_ Hs].
    apply Forall_cons in Hs as [[Hx1 Hx2] _].
    eexists. split; [exact Hm|].
    assert (Hx : ((0 + x) / inject_Z 1 == x)%Q) by (cbn [inject_Z]; field).
    rewrite Hx. now split.
  - destruct (median_even sample Hne Heven)
      as (l1 & a & b & l2 & E & _ & _ & Hm).
    rewrite E in Hs. apply Forall_app in Hs as [_ Hs].
    apply Forall_cons in Hs as [[Ha1 Ha2] Hs].
    apply Forall_cons in Hs as [[Hb1 Hb2] _].
    eexists. split; [exact Hm|].
    assert (Hab : ((0 + a + b) / inject_Z 2 == (a + b) / 2)%Q)
      by (cbn [inject_Z]; field).
    rewrite Hab. split.
    + apply Qle_shift_div_l; [reflexivity|]. lra.
    + apply Qle_shift_div_r; [reflexivity|]. lra.
Qed.

Lemma median_within_the_sample_witness :
  exists m, median [4; 1; 2; 3]%Q = Fin m /\ (1 <= m)%Q /\ (m <= 4)%Q.
Proof.
  apply (median_within_the_sample [4; 1; 2; 3]%Q 1%Q 4%Q).
  - discriminate.
  - repeat constructor; vm_compute; discriminate.
Defined.

(** X11.  The median does not depend on the order in which the runs were
    measured: two samples with the same entries have the same median. *)
Theorem median_ignores_the_order (l1 l2 : list Q) :
  Permutation l1 l2 -> feq (median l1) (median l2).
Proof.
  intros Hp. pose proof (Permutation_length Hp) as Hlen.
  destruct l1 as [|x1 l1'] eqn:E1.
  { apply Permutation_nil in Hp. subst l2. exact I. }
  rewrite <- E1 in *. assert (Hne1 : l1 <> []) by (subst; discriminate).
  assert (Hne2 : l2 <> []).
  { intros ->. rewrite E1 in Hlen. discriminate. }
  clear E1 x1 l1'.
  assert (Hps : Permutation (sort l1) (sort l2)).
  { rewrite !sort_perm. exact Hp. }
  destruct (Nat.eq_dec (length l1 mod 2)%nat 1%nat) as [Hodd|Heven].
  - destruct (median_odd l1 Hodd) as (a1 & x & a2 & Ea & La & _ & Hm1).
    assert (Hodd2 : (length l2 mod 2)%nat = 1%nat) by now rewrite <- Hlen.
    destruct (median_odd l2 Hodd2) as (b1 & y & b2 & Eb & Lb & _ & Hm2).
    rewrite Hm1, Hm2. cbn [feq].
    assert (Hxy : (x == y)%Q).
    { apply (sorted_perm_lookup_eq (sort l1) (sort l2) (length l1 / 2));
        try apply sort_sorted; try exact Hps.
      - rewrite Ea. now apply list_lookup_middle.
      - rewrite Eb. apply list_lookup_middle. now rewrite Hlen. }
    now rewrite Hxy.
  - destruct (median_even l1 Hne1 Heven)
      as (a1 & x & x' & a2 & Ea & La & _ & Hm1).
    assert (Heven2 : (length l2 mod 2)%nat <> 1%nat) by now rewrite <- Hlen.
    destruct (median_even l2 Hne2 Heven2)
      as (b1 & y & y' & b2 & Eb & Lb & _ & Hm2).
    rewrite Hm1, Hm2. cbn [feq]. rewrite Hlen in La.
    assert (Hab : length a1 = length b1) by lia.
    assert (Hxy : (x == y)%Q).
    { apply (sorted_perm_lookup_eq (sort l1) (sort l2) (length a1));
        try apply sort_sorted; try exact Hps.
      - rewrite Ea. now apply list_lookup_middle.
      - rewrite Eb. now apply list_lookup_middle. }
    assert (Hxy' : (x' == y')%Q).
    { apply (sorted_perm_lookup_eq (sort l1) (sort l2) (S (length a1)));
        try apply sort_sorted; try exact Hps.
      - rewrite Ea. change (a1 ++ x :: x' :: a2) with (a1 ++ [x] ++ x' :: a2).
        rewrite app_assoc. apply list_lookup_middle.
        rewrite length_app. cbn [length]. lia.
      - rewrite Eb. change (b1 ++ y :: y' :: b2) with (b1 ++ [y] ++ y' :: b2).
        rewrite app_assoc. apply list_lookup_middle.
        rewrite length_app. cbn [length]. lia. }
    now rewrite Hxy, Hxy'.
Qed.

Lemma median_ignores_the_order_witness :
  feq (median (3 :: [1; 2])%Q) (median ([1; 2] ++ [3])%Q).
Proof.
  apply (median_ignores_the_order (3 :: [1; 2])%Q ([1; 2] ++ [3])%Q).
  apply Permutation_cons_append.
Defined.

End Sample.

(** ** More on the run of the numeric driver *)

Module Report.
Import Py Proc Spec Conv1d Resolver Driver.

Section Process.
Variable environ : gmap string string.
Variable clock : nat -> Q.
Variable engine : list event -> event -> option exn.
Variable probe : result json.

(** X12.  A layout other than [NWC] and [NCW] is fatal before any work is
    done: the twelve parameter lines and the version line are printed,
    [bench] raises [ValueError] naming the layout, the process ends with
    status 1 and a traceback, nothing is on standard output, the clock was
    never read, no tensor was built and the workload never ran. *)
Theorem unknown_layout_is_fatal_before_the_engine (v : string) :
  well_formed environ = true ->
  environ !! "CONV_DATA_FORMAT" = Some v ->
  v <> "NWC" -> v <> "NCW" ->
  fst (run environ clock engine probe) = 1
  /\ snd (run environ clock engine probe)
     = mkState Fd1 []
         (echoes (resolve_with_fallback environ)
          ++ [VersionLine;
              Traceback (ValueError ("Unknown data_format: " +:+ v))])
         0 [].
Proof.
  intros Hw Hv Hn1 Hn2.
  assert (Hf : _ARGS_DATA_FORMAT (resolve_with_fallback environ) = v).
  { unfold resolve_with_fallback, getenv_str. cbn. now rewrite Hv. }
  assert (Hl : known_layout (resolve_with_fallback environ) = false).
  { unfold known_layout. rewrite Hf.
    destruct (String.eqb_spec v "NWC") as [E|_]; [contradiction|].
    destruct (String.eqb_spec v "NCW") as [E|_]; [contradiction|].
    reflexivity. }
  unfold run, exit_status, script, mbind, M_bind, bind.
  pose proof (resolve_cases environ init) as H.
  destruct (resolve environ init) as [[g|e] s1] eqn:Hr.
  - destruct H as (_ & -> & _).
    apply Configuration.resolve_returns_state in Hr. subst s1.
    unfold main, mbind, M_bind, bind.
    cbn [print_stderr write sys_stdout out err ticks trace init snd].
    rewrite Workload.bench_unknown_layout by exact Hl. rewrite Hf.
    cbn [fst snd sys_stdout out err ticks trace]. split; [reflexivity|].
    now rewrite <- app_assoc.
  - destruct H as (Hw' & _). congruence.
Qed.

(** X13.  Standard output of the numeric driver holds exactly one JSON
    document or nothing at all, and whenever the exit status is not 0 it
    holds nothing: a report means success. *)
Theorem numeric_driver_writes_one_report_or_nothing :
  (out (snd (run environ clock engine probe)) = []
   \/ exists rep,
        out (snd (run environ clock engine probe)) = [JsonDump rep])
  /\ (fst (run environ clock engine probe) <> 0 ->
      out (snd (run environ clock engine probe)) = []).
Proof.
  destruct (stdout_is_the_report_or_empty environ clock engine probe)
    as [H|(H0 & rep & H)].
  - split; [now left|]. intros _. exact H.
  - split; [right; eauto|]. intros Hn. contradiction.
Qed.

(** X14.  A report on standard output means the run went well and carries
    the resolved configuration: the exit status is 0, every integer-valued
    variable was well formed, the report names the framework and the
    benchmark, its parameters are those of the resolved globals, its result
    holds a rate and an elapsed time, and its build information is what the
    probe gave (null after a failure of the probe). *)
Theorem report_carries_the_resolved_configuration (rep : json) :
  out (snd (run environ clock engine probe)) = [JsonDump rep] ->
  fst (run environ clock engine probe) = 0
  /\ well_formed environ = true
  /\ field "framework" rep = Some (JStr "tensorflow")
  /\ field "name" rep = Some (JStr "PiConv1D")
  /\ field "@parameters" rep
     = Some (parameters (resolve_with_fallback environ))
  /\ (exists rate elapsed,
        field "@result" rep
        = Some (JDict [("rate", JFloat rate); ("elapsed", JFloat elapsed)]))
  /\ (exists bi,
        probe_value probe = Ok bi
        /\ field "tensorflow_buildinfo" rep = Some bi).
Proof.
  pose proof (run_cases environ clock engine probe) as H.
  pose proof (resolve_cases environ init) as Hr.
  destruct (resolve environ init) as [[g|x] s1].
  - destruct Hr as (Hw & -> & _).
    destruct (fst (bench clock engine _ _ _ _ _ _ _ _)) as [r|x].
    + destruct (probe_value probe) as [bi|x].
      * destruct H as [Hs Ho]. rewrite Ho. intros [= <-].
        repeat split; try assumption; eauto.
      * destruct H as [_ Ho]. rewrite Ho. discriminate.
    + destruct H as [_ Ho]. rewrite Ho. discriminate.
  - destruct H as [_ Ho]. rewrite Ho. discriminate.
Qed.

End Process.

(** X15.  The probe of the build information swallows only [Exception]:
    an exception outside that class (a [KeyboardInterrupt], a
    [SystemExit]) raised while the build information is read leaves
    standard output empty, even though the measurement had been made. *)
Theorem probe_base_exception_is_not_swallowed
    (environ : gmap string string) (clock : nat -> Q)
    (engine : list event -> event -> option exn) (e : exn) :
  is_Exception e = false ->
  out (snd (run environ clock engine (Raise e))) = [].
Proof.
  intros He.
  pose proof (run_cases environ clock engine (Raise e)) as H.
  destruct (resolve environ init) as [[g|x] s1]; [|apply H].
  destruct (fst (bench clock engine g _ _ _ _ _ _ _)) as [r|x]; [|apply H].
  unfold probe_value in H. rewrite He in H. apply H.
Qed.

Lemma unknown_layout_is_fatal_before_the_engine_witness :
  fst (run environ_bad_layout clock_10ms engine_up (Ok JNull)) = 1
  /\ snd (run environ_bad_layout clock_10ms engine_up (Ok JNull))
     = mkState Fd1 []
         (echoes (resolve_with_fallback environ_bad_layout)
          ++ [VersionLine;
              Traceback (ValueError ("Unknown data_format: " +:+ "NHWC"))])
         0 [].
Proof.
  apply (unknown_layout_is_fatal_before_the_engine environ_bad_layout
           clock_10ms engine_up (Ok JNull) "NHWC").
  - vm_compute. reflexivity.
  - vm_compute. reflexivity.
  - discriminate.
  - discriminate.
Defined.

Lemma report_carries_the_resolved_configuration_witness :
  fst (run ∅ clock_10ms engine_up (Ok (JDict []))) = 0
  /\ well_formed ∅ = true
  /\ field "framework" report_defaults = Some (JStr "tensorflow")
  /\ field "name" report_defaults = Some (JStr "PiConv1D")
  /\ field "@parameters" report_defaults
     = Some (parameters (resolve_with_fallback ∅))
  /\ (exists rate elapsed,
        field "@result" report_defaults
        = Some (JDict [("rate", JFloat rate); ("elapsed", JFloat elapsed)]))
  /\ (exists bi,
        probe_value (Ok (JDict [])) = Ok bi
        /\ field "tensorflow_buildinfo" report_defaults = Some bi).
Proof.
  apply (report_carries_the_resolved_configuration ∅ clock_10ms engine_up
           (Ok (JDict [])) report_defaults).
  vm_compute. reflexivity.
Defined.

Lemma probe_base_exception_is_not_swallowed_witness :
  out (snd (run ∅ clock_10ms engine_up (Raise KeyboardInterrupt))) = [].
Proof.
  apply (probe_base_exception_is_not_swallowed ∅ clock_10ms engine_up
           KeyboardInterrupt).
  reflexivity.
Defined.

End Report.

(** ** More on the bridge to the interpreter suite *)

Module Suite.
Import Py Proc Spec PiPyPerformance Resolver Bridge.

Lemma script_after_survival (p : suite) :
  survived p ->
  script p init
  = (benchmarks ← load_output p;
     write Fd1 (JsonDump (report benchmarks));;
     raise (SystemExit (Some (AInt 0))))
      (mkState Fd2 (suite_stdout p) (suite_stderr p) 0 []).
Proof.
  intros Hs. unfold script, try_except_SystemExit.
  unfold mbind at 1, M_bind at 1, bind at 1. rewrite bench_spec.
  destruct Hs as [He|(args & He & Hz)]; rewrite He.
  - reflexivity.
  - unfold mbind at 1, M_bind at 1, bind at 1, lift. rewrite Hz. reflexivity.
Qed.

(** The run of the bridge after a suite that was survived. *)
Lemma run_survived (p : suite) :
  survived p ->
  run p
  = match output_json p with
    | Text (Some j) =>
        (0, mkState Fd2 (suite_stdout p ++ [JsonDump (report j)])
              (suite_stderr p) 0 [])
    | f =>
        (1, mkState Fd2 (suite_stdout p)
              (suite_stderr p ++ [Traceback (load_error f)]) 0 [])
    end.
Proof.
  intros Hs. unfold run, exit_status. rewrite script_after_survival by exact Hs.
  unfold load_output. now destruct (output_json p) as [|[j|]].
Qed.

(** The run of the bridge after a suite that was not. *)
Lemma run_not_survived (p : suite) (e : exn) :
  suite_end p = Raise e ->
  ~ survived p ->
  exists x,
    run p
    = (1, mkState Fd1 (suite_stdout p)
            (suite_stderr p ++ [Traceback x]) 0 [])
    /\ match e with
       | SystemExit args =>
           match int (VStr (str_of_exit args)) with
           | Ok _ => exists msg, x = TypeError msg
           | Raise x' => x = x' /\ exists msg, x = ValueError msg
           end
       | _ => x = e
       end.
Proof.
  intros He Hn. unfold run, exit_status, script, try_except_SystemExit.
  unfold mbind at 1, M_bind at 1, bind at 1. rewrite bench_spec, He.
  destruct e; try (eexists; split; reflexivity).
  unfold mbind, M_bind, bind, lift.
  destruct (int (VStr (str_of_exit args))) as [code|x] eqn:Hc.
  - destruct (Z.eqb_spec code 0) as [->|Hz].
    + exfalso. apply Hn. right. eauto.
    + cbn. eexists. split; [reflexivity|]. eauto.
  - pose proof (int_str_raise _ _ Hc) as [msg ->].
    cbn. eexists. split; [reflexivity|]. split; eauto.
Qed.

Lemma survived_dec (p : suite) : survived p \/ ~ survived p.
Proof.
  unfold survived. destruct (suite_end p) as [[]|e]; [left; now left|].
  destruct e; try (right; intros [H|(a & H & _)]; discriminate).
  destruct (int (VStr (str_of_exit args))) as [code|x] eqn:Hc.
  - destruct (Z.eq_dec code 0) as [->|Hz].
    + left. right. eauto.
    + right. intros [H|(a & [= <-] & H)]; [discriminate|]. congruence.
  - right. intros [H|(a & [= <-] & H)]; [discriminate|]. congruence.
Qed.

(** What the diagnostic stream of the bridge holds in the end. *)
Lemma run_err (p : suite) :
  err (snd (run p)) = suite_stderr p
  \/ exists x, err (snd (run p)) = suite_stderr p ++ [Traceback x].
Proof.
  destruct (survived_dec p) as [Hs|Hn].
  - rewrite (run_survived p Hs).
    destruct (output_json p) as [|[j|]]; cbn; eauto.
  - destruct (suite_end p) as [[]|e] eqn:He.
    + exfalso. apply Hn. now left.
    + destruct (run_not_survived p e He Hn) as (x & -> & _). cbn. eauto.
Qed.

(** X16.  After a suite that returned, or that left with an exit whose
    text reads as 0, and that wrote a parsable result file, the bridge
    ends with status 0, standard output is what the suite printed followed
    by one report, the report wraps the suite's document unchanged under
    ["@result"] with empty parameters, and the diagnostic stream holds
    only what the suite wrote there. *)
Theorem bridge_wraps_the_artifact (p : suite) (j : json) :
  survived p ->
  output_json p = Text (Some j) ->
  run p
  = (0, mkState Fd2 (suite_stdout p ++ [JsonDump (report j)])
          (suite_stderr p) 0 [])
  /\ field "@result" (report j) = Some j
  /\ field "@parameters" (report j) = Some (JDict [])
  /\ field "name" (report j) = Some (JStr "PiPyPerformance")
  /\ field "test_suite" (report j) = Some (JStr "performance").
Proof.
  intros Hs Hj. split; [|now repeat split].
  rewrite run_survived by exact Hs. now rewrite Hj.
Qed.

(** X17.  After a suite that was survived but left no parsable result
    file, the bridge ends with status 1 and a traceback of the error of
    [open] or of [json.load], and writes no report. *)
Theorem bridge_needs_a_parsable_artifact (p : suite) :
  survived p ->
  (forall j, output_json p <> Text (Some j)) ->
  run p
  = (1, mkState Fd2 (suite_stdout p)
          (suite_stderr p ++ [Traceback (load_error (output_json p))]) 0 []).
Proof.
  intros Hs Hj. rewrite run_survived by exact Hs.
  destruct (output_json p) as [|[j|]]; try reflexivity.
  now destruct (Hj j).
Qed.

(** X18.  The bridge ends in one of two ways.  With status 0, and then the
    suite was survived, its result file parsed, and standard output is the
    suite's output followed by the report of that file.  Or with another
    status, and then standard output is the suite's output alone, and the
    suite was not survived or its result file did not parse.  A report is
    written exactly when the status is 0. *)
Theorem bridge_ends_with_report_or_failure (p : suite) :
  (fst (run p) = 0 /\ survived p
   /\ exists j,
        output_json p = Text (Some j)
        /\ out (snd (run p)) = suite_stdout p ++ [JsonDump (report j)])
  \/ (fst (run p) <> 0 /\ out (snd (run p)) = suite_stdout p
      /\ (~ survived p \/ forall j, output_json p <> Text (Some j))).
Proof.
  destruct (survived_dec p) as [Hs|Hn].
  - rewrite (run_survived p Hs).
    destruct (output_json p) as [|[j|]] eqn:Hj.
    + right. repeat split; [discriminate|]. now right.
    + left. repeat split; eauto.
    + right. repeat split; [discriminate|]. now right.
  - right. destruct (suite_end p) as [[]|e] eqn:He.
    + exfalso. apply Hn. now left.
    + destruct (run_not_survived p e He Hn) as (x & -> & _).
      repeat split; [discriminate|]. now left.
Qed.

(** X19.  An [Exception] of the suite is not caught: the bridge ends with
    status 1 and the traceback of that very exception, before standard
    output is rebound and without reading the result file, even when a
    result file is there. *)
Theorem suite_exception_is_not_caught (p : suite) (e : exn) :
  suite_end p = Raise e ->
  is_Exception e = true ->
  run p
  = (1, mkState Fd1 (suite_stdout p) (suite_stderr p ++ [Traceback e]) 0 []).
Proof.
  intros He Hex.
  assert (Hn : ~ survived p).
  { intros [H|(a & H & _)]; [congruence|]. rewrite He in H.
    injection H as ->. discriminate. }
  destruct (run_not_survived p e He Hn) as (x & -> & Hx).
  destruct e; now subst.
Qed.

(** X20.  Every [SystemExit] of the suite whose text does not read as the
    integer 0 ends the bridge with status 1 and the traceback of a
    [TypeError] or a [ValueError], without a report.  This includes the
    exits that mean success: a bare [sys.exit()] and [sys.exit(None)],
    whose texts are not integers, give [ValueError]. *)
Theorem suite_exit_other_than_0_is_fatal (p : suite) args :
  suite_end p = Raise (SystemExit args) ->
  int (VStr (str_of_exit args)) <> Ok 0 ->
  exists x,
    run p
    = (1, mkState Fd1 (suite_stdout p) (suite_stderr p ++ [Traceback x]) 0 [])
    /\ ((exists msg, x = TypeError msg) \/ (exists msg, x = ValueError msg))
    /\ ((args = None \/ args = Some ANone) -> exists msg, x = ValueError msg).
Proof.
  intros He Hz.
  assert (Hn : ~ survived p).
  { intros [H|(a & H & H0)]; [congruence|]. rewrite He in H.
    injection H as <-. contradiction. }
  destruct (run_not_survived p _ He Hn) as (x & -> & Hx).
  exists x. split; [reflexivity|].
  destruct (int (VStr (str_of_exit args))) as [code|x'] eqn:Hc.
  - split; [now left|]. intros [->| ->]; discriminate.
  - destruct Hx as [_ Hx]. split; [now right|]. intros _. exact Hx.
Qed.

(** X21.  The line [pyperformance did not finish successfully] is never
    printed: the diagnostic stream of the bridge holds what the suite
    wrote there, followed by at most one traceback, and every plain line
    on it is a line of the suite. *)
Theorem bridge_never_prints_its_failure_line (p : suite) :
  (err (snd (run p)) = suite_stderr p
   \/ exists x, err (snd (run p)) = suite_stderr p ++ [Traceback x])
  /\ forall msg,
       In (Line msg) (err (snd (run p))) -> In (Line msg) (suite_stderr p).
Proof.
  pose proof (run_err p) as H. split; [exact H|].
  intros msg Hin. destruct H as [H|[x H]]; rewrite H in Hin; [exact Hin|].
  apply in_app_or in Hin as [Hin|[Hin|[]]]; [exact Hin|discriminate].
Qed.

Lemma bridge_wraps_the_artifact_witness :
  let j := JDict [("version", JStr "1.0")] in
  run exit_0_suite
  = (0, mkState Fd2 (suite_stdout exit_0_suite ++ [JsonDump (report j)])
          (suite_stderr exit_0_suite) 0 [])
  /\ field "@result" (report j) = Some j
  /\ field "@parameters" (report j) = Some (JDict [])
  /\ field "name" (report j) = Some (JStr "PiPyPerformance")
  /\ field "test_suite" (report j) = Some (JStr "performance").
Proof.
  apply (bridge_wraps_the_artifact exit_0_suite
           (JDict [("version", JStr "1.0")])).
  - right. exists (Some (AInt 0)). split; reflexivity.
  - reflexivity.
Defined.

Lemma bridge_needs_a_parsable_artifact_witness :
  run suite_without_file
  = (1, mkState Fd2 (suite_stdout suite_without_file)
          (suite_stderr suite_without_file
           ++ [Traceback (load_error (output_json suite_without_file))])
          0 []).
Proof.
  apply (bridge_needs_a_parsable_artifact suite_without_file).
  - left. reflexivity.
  - intros j. discriminate.
Defined.

Lemma suite_exception_is_not_caught_witness :
  run crashing_suite
  = (1, mkState Fd1 (suite_stdout crashing_suite)
          (suite_stderr crashing_suite
           ++ [Traceback
                 (AttributeError "'NoneType' object has no attribute 'dump'")])
          0 []).
Proof.
  apply (suite_exception_is_not_caught crashing_suite
           (AttributeError "'NoneType' object has no attribute 'dump'")).
  - reflexivity.
  - reflexivity.
Defined.

Lemma suite_exit_other_than_0_is_fatal_witness :
  exists x,
    run bare_exit_suite
    = (1, mkState Fd1 (suite_stdout bare_exit_suite)
            (suite_stderr bare_exit_suite ++ [Traceback x]) 0 [])
    /\ ((exists msg, x = TypeError msg) \/ (exists msg, x = ValueError msg))
    /\ ((@None exit_arg = None \/ @None exit_arg = Some ANone) ->
        exists msg, x = ValueError msg).
Proof.
  apply (suite_exit_other_than_0_is_fatal bare_exit_suite None).
  - reflexivity.
  - vm_compute. discriminate.
Defined.

End Suite.
